(** * GlobalPartners order-analytics dashboard

    A shallow embedding of [src/app.py]: the cached table loader, the
    load-time numeric cleaning, and the aggregations of the report
    sections (CLV, churn gap, sales trends, location rollup, loyalty and
    discount comparisons), with the properties of the specification
    stated and settled against it.

    The script is a straight-line page render.  Each report section is
    embedded as a function of the tables it reads; widgets that the
    dashboard framework draws are values of type [widget]; Python
    exceptions are values of [result]. *)

From Stdlib Require Import ZArith QArith Qcanon String Ascii List.
From Stdlib Require Import Sorting.Permutation Sorting.Sorted Lia.
From Stdlib Require PrimFloat.
From stdpp Require Import base numbers strings pretty gmap.

Import ListNotations.
Local Open Scope Z_scope.

(** ** Numbers

    pandas holds every numeric column of the dashboard as float64.  The
    model keeps the four kinds of float64 values apart: finite numbers,
    the two infinities and NaN.  Finite numbers are exact rationals:
    rounding to 53 bits and overflow are not modelled, the IEEE rules
    for the special values (division by zero, NaN propagation) are.
    The percentages that the script computes from literals are computed
    a second time in binary64 itself, in [Binary64] below.

    A sum of several values and a quotient are exact here and rounded in
    the program.  The properties below are therefore stated on rows,
    comparisons and special values, or with bounds that rounding keeps;
    none equates two float sums that the program adds up in different
    orders ([Binary64] shows that such sums differ). *)

Module F64.

Inductive float64 : Type :=
| Finite (q : Qc)
| PosInf
| NegInf
| NaN.

#[global] Instance float64_eq_dec : EqDecision float64.
Proof. solve_decision. Defined.

Definition of_Z (n : Z) : float64 := Finite (Q2Qc (inject_Z n)).

(** [dec n d] is the literal [n/d], e.g. [dec 5283 100] for 52.83 *)
Definition dec (n : Z) (d : positive) : float64 := Finite (Q2Qc (n # d)).

Definition zero : float64 := of_Z 0.

Definition is_nan (x : float64) : bool :=
  match x with NaN => true | _ => false end.

Definition is_finite (x : float64) : bool :=
  match x with Finite _ => true | _ => false end.

Definition is_inf (x : float64) : bool :=
  match x with PosInf | NegInf => true | _ => false end.

(** sign of a rational: [Lt] negative, [Eq] zero, [Gt] positive *)
Definition sgn (q : Qc) : comparison := (q ?= Q2Qc 0)%Qc.

Definition fneg (x : float64) : float64 :=
  match x with
  | Finite q => Finite (- q)%Qc
  | PosInf => NegInf
  | NegInf => PosInf
  | NaN => NaN
  end.

Definition fadd (x y : float64) : float64 :=
  match x, y with
  | NaN, _ | _, NaN => NaN
  | Finite a, Finite b => Finite (a + b)%Qc
  | PosInf, NegInf | NegInf, PosInf => NaN
  | PosInf, _ | _, PosInf => PosInf
  | NegInf, _ | _, NegInf => NegInf
  end.

Definition fsub (x y : float64) : float64 := fadd x (fneg y).

(** an infinity of the sign [s]; a zero sign gives NaN (inf * 0) *)
Definition inf_of_sign (s : comparison) : float64 :=
  match s with Gt => PosInf | Lt => NegInf | Eq => NaN end.

Definition fmul (x y : float64) : float64 :=
  match x, y with
  | NaN, _ | _, NaN => NaN
  | Finite a, Finite b => Finite (a * b)%Qc
  | PosInf, Finite b | Finite b, PosInf => inf_of_sign (sgn b)
  | NegInf, Finite b | Finite b, NegInf => inf_of_sign (CompOpp (sgn b))
  | PosInf, PosInf | NegInf, NegInf => PosInf
  | PosInf, NegInf | NegInf, PosInf => NegInf
  end.

(** float64 division never raises: a zero divisor gives an infinity of
    the sign of the dividend, and 0/0 gives NaN *)
Definition fdiv (x y : float64) : float64 :=
  match x, y with
  | NaN, _ | _, NaN => NaN
  | Finite a, Finite b =>
      match sgn b with
      | Eq => inf_of_sign (sgn a)
      | _ => Finite (a / b)%Qc
      end
  | Finite _, (PosInf | NegInf) => zero
  | PosInf, Finite b => match sgn b with Lt => NegInf | _ => PosInf end
  | NegInf, Finite b => match sgn b with Lt => PosInf | _ => NegInf end
  | (PosInf | NegInf), (PosInf | NegInf) => NaN
  end.

(** comparisons; every comparison with NaN is false *)
Definition fcompare (x y : float64) : option comparison :=
  match x, y with
  | NaN, _ | _, NaN => None
  | Finite a, Finite b => Some (a ?= b)%Qc
  | PosInf, PosInf | NegInf, NegInf => Some Eq
  | PosInf, _ | _, NegInf => Some Gt
  | NegInf, _ | _, PosInf => Some Lt
  end.

Definition fltb (x y : float64) : bool :=
  match fcompare x y with Some Lt => true | _ => false end.

Definition fleb (x y : float64) : bool :=
  match fcompare x y with Some (Lt | Eq) => true | _ => false end.

Definition feqb (x y : float64) : bool :=
  match fcompare x y with Some Eq => true | _ => false end.

Definition fabs (x : float64) : float64 :=
  match x with
  | Finite q => match sgn q with Lt => Finite (- q)%Qc | _ => x end
  | PosInf | NegInf => PosInf
  | NaN => NaN
  end.

(** the sum of a list, added up from 0.0 (exact on finite values) *)
Definition fsum (l : list float64) : float64 := fold_right fadd zero l.

End F64.

Export F64.

Declare Scope f64_scope.
Delimit Scope f64_scope with f64.
Infix "+" := fadd : f64_scope.
Infix "-" := fsub : f64_scope.
Infix "*" := fmul : f64_scope.
Infix "/" := fdiv : f64_scope.
Infix "<?" := fltb : f64_scope.
Infix "<=?" := fleb : f64_scope.

(** ** Python string formatting of floats

    The format specs [.1f], [.2f] and [,.2f] used in the narrative
    strings: fixed-point with ties rounded to even, optional thousands
    separators, and the words [inf], [-inf] and [nan] for the special
    values. *)

Module Fmt.

Definition round_half_even (q : Qc) : Z :=
  let n := Qnum (this q) in
  let d := Z.pos (Qden (this q)) in
  let f := n / d in
  let r := n mod d in
  match 2 * r ?= d with
  | Lt => f
  | Gt => f + 1
  | Eq => if Z.even f then f else f + 1
  end.

Fixpoint group3_rev (l : list ascii) (k : nat) : list ascii :=
  match l with
  | [] => []
  | c :: t =>
      match k with
      | O => ","%char :: c :: group3_rev t 2
      | S k' => c :: group3_rev t k'
      end
  end.

(** [12345678] as [12,345,678] *)
Definition group_thousands (s : string) : string :=
  string_of_list_ascii
    (rev (group3_rev (rev (list_ascii_of_string s)) 3)).

Fixpoint zeros (n : nat) : string :=
  match n with O => EmptyString | S k => String "0"%char (zeros k) end.

(** left-pad a digit string with zeros to [n] characters *)
Definition pad_left (n : nat) (s : string) : string :=
  (zeros (n - String.length s) +:+ s)%string.

(** the format spec [.<digits>f], with [,] when [grouping] *)
Definition format_f (grouping : bool) (digits : nat) (x : float64) : string :=
  match x with
  | NaN => "nan"
  | PosInf => "inf"
  | NegInf => "-inf"
  | Finite q =>
      let neg := match sgn q with Lt => true | _ => false end in
      let mag := if neg then (- q)%Qc else q in
      let scale := 10 ^ Z.of_nat digits in
      let m := round_half_even (mag * Q2Qc (inject_Z scale))%Qc in
      let ip := pretty (m / scale) in
      let ip := if grouping then group_thousands ip else ip in
      let fp := match digits with
                | O => EmptyString
                | _ => ("." +:+ pad_left digits (pretty (m mod scale)))%string
                end in
      ((if neg then "-" else "") +:+ ip +:+ fp)%string
  end.

End Fmt.

(** ** Exceptions and widgets *)

Inductive exn : Type :=
| KeyError (column : string)
| IndexError
| QueryFailed (message : string).

Inductive result (A : Type) : Type :=
| Ok (a : A)
| Raise (e : exn).

Arguments Ok {A} a.
Arguments Raise {A} e.

#[global] Instance result_ret : MRet result := fun A a => Ok a.
#[global] Instance result_bind : MBind result :=
  fun A B f m => match m with Ok a => f a | Raise e => Raise e end.

(** the first row of a selection, [.iloc[0]]: IndexError when empty *)
Definition iloc0 {A : Type} (l : list A) : result A :=
  match l with
  | [] => Raise IndexError
  | a :: _ => Ok a
  end.

(** ** Tables as the warehouse client returns them

    A loaded table is a data frame: named columns of cells.  The
    warehouse client may return a numeric field as a float, an integer,
    text (for instance a text-encoded decimal) or a null. *)

Inductive cell : Type :=
| CFloat (x : float64)
| CInt (n : Z)
| CText (s : string)
| CNull.

Abbreviation Frame := (gmap string (list cell)).

(** ** 1. Connection logic: the cached table loader

    [load_gold_data] is decorated with [st.cache_data(ttl=3600)]: the
    framework memoizes the call by its argument and keeps a result for
    [ttl] seconds.  The cache is an explicit map from the table name to
    the fetched frame and the time of the fetch; the clock is a
    parameter.  The warehouse is a parameter too: what a query returns
    (or raises) at a given time.  [issued] records every query sent to
    the warehouse, newest first. *)

Module Loader.

Definition DATABASE : string := "globalpartners_gold_db".

Definition ttl : Z := 3600.

Record cache_entry : Type := {
  ce_value : Frame;
  ce_time : Z
}.

Record query : Type := {
  q_sql : string;
  q_database : string
}.

Record loader : Type := {
  cache : gmap string cache_entry;
  issued : list query
}.

Definition empty_loader : loader := {| cache := ∅; issued := [] |}.

Section WithWarehouse.

(** [wr.athena.read_sql_query(sql, database)] run at time [now] *)
Variable read_sql_query : query -> Z -> result Frame.

Definition select_all (table : string) : query :=
  {| q_sql := ("SELECT * FROM " +:+ table)%string; q_database := DATABASE |}.

(** an entry is served while less than [ttl] seconds old *)
Definition fresh (now : Z) (e : cache_entry) : bool :=
  now <? ce_time e + ttl.

(** the body of [load_gold_data], run on a cache miss: one query; a
    result is stored under the table name, an exception is not *)
Definition fetch (table : string) (now : Z) (s : loader)
  : result Frame * loader :=
  let q := select_all table in
  match read_sql_query q now with
  | Ok v =>
      (Ok v, {| cache := <[table := {| ce_value := v; ce_time := now |}]> (cache s);
                issued := q :: issued s |})
  | Raise e =>
      (Raise e, {| cache := cache s; issued := q :: issued s |})
  end.

Definition load_gold_data (table : string) (now : Z) (s : loader)
  : result Frame * loader :=
  match cache s !! table with
  | Some e => if fresh now e then (Ok (ce_value e), s) else fetch table now s
  | None => fetch table now s
  end.

(** the script runs again on every interaction: the same table asked
    for at each time of a list, in order *)
Fixpoint load_each (table : string) (times : list Z) (s : loader)
  : list (result Frame) * loader :=
  match times with
  | [] => ([], s)
  | now :: later =>
      let '(r, s1) := load_gold_data table now s in
      let '(rs, s2) := load_each table later s1 in
      (r :: rs, s2)
  end.

End WithWarehouse.

End Loader.

(** ** 0. Data cleaning

    [pd.to_numeric(col, errors='coerce').fillna(0)] over the columns of
    [numeric_cols] that the frame has. *)

Module Cleaning.

Definition numeric_cols : list string :=
  ["current_clv"; "monetary_value"; "frequency"; "recency";
   "avg_gap_between_orders"; "avg_spend_change_pct"]%string.

Section WithParser.

(** the text-to-float64 parser of [pd.to_numeric]: [None] for text
    that is not a number.  It may return an infinity or NaN (the
    texts [inf] and [nan] parse). *)
Variable parse_number : string -> option float64.

(** [pd.to_numeric(..., errors='coerce')] on one value: what cannot be
    parsed becomes NaN *)
Definition to_numeric_coerce (c : cell) : float64 :=
  match c with
  | CFloat x => x
  | CInt n => of_Z n
  | CText s => match parse_number s with Some x => x | None => NaN end
  | CNull => NaN
  end.

(** [.fillna(v)] on one value *)
Definition fillna (v x : float64) : float64 :=
  if is_nan x then v else x.

Definition clean_value (c : cell) : float64 :=
  fillna zero (to_numeric_coerce c).

(** whether a value can be parsed as a number *)
Definition parses (c : cell) : bool :=
  match c with
  | CFloat _ | CInt _ => true
  | CText s => match parse_number s with Some _ => true | None => false end
  | CNull => false
  end.

(** one turn of the loop: [if col in df.columns: df[col] = ...] *)
Definition clean_column (df : Frame) (col : string) : Frame :=
  match df !! col with
  | Some values => <[col := map (fun c => CFloat (clean_value c)) values]> df
  | None => df
  end.

(** the loop over [numeric_cols] *)
Definition clean_frame (df : Frame) : Frame :=
  fold_left clean_column numeric_cols df.

(** [df_trends['daily_revenue'] = pd.to_numeric(..., errors='coerce')]:
    the sales-trend revenue is coerced without a zero fill *)
Definition coerce_column (df : Frame) (col : string) : result Frame :=
  match df !! col with
  | Some values => Ok (<[col := map (fun c => CFloat (to_numeric_coerce c)) values]> df)
  | None => Raise (KeyError col)
  end.

End WithParser.

(** A parser for plain decimal text, to run the cleaning on examples:
    an optional sign, digits, an optional fraction; and the words
    [inf] and [nan]. *)

Definition digit_of (c : ascii) : option Z :=
  let n := Z.of_nat (nat_of_ascii c) in
  if (48 <=? n) && (n <=? 57) then Some (n - 48) else None.

Fixpoint digits_value (acc : Z) (s : string) : option (Z * nat) :=
  match s with
  | EmptyString => Some (acc, O)
  | String c t =>
      match digit_of c with
      | Some d =>
          match digits_value (10 * acc + d) t with
          | Some (v, k) => Some (v, S k)
          | None => None
          end
      | None => None
      end
  end.

Fixpoint split_at_dot (s : string) : string * option string :=
  match s with
  | EmptyString => (EmptyString, None)
  | String c t =>
      if Ascii.eqb c "."%char then (EmptyString, Some t)
      else let '(a, b) := split_at_dot t in (String c a, b)
  end.

Definition parse_unsigned (s : string) : option Qc :=
  let '(ip, fp) := split_at_dot s in
  match ip, fp with
  | EmptyString, None => None
  | _, None =>
      match digits_value 0 ip with
      | Some (v, _) => Some (Q2Qc (inject_Z v))
      | None => None
      end
  | _, Some f =>
      match digits_value 0 ip, digits_value 0 f with
      | Some (v, ki), Some (w, kf) =>
          if (ki + kf =? 0)%nat then None
          else Some (Q2Qc (inject_Z v) + Q2Qc (w # Pos.of_nat (Nat.pow 10 kf)))%Qc
      | _, _ => None
      end
  end.

Definition parse_decimal (s : string) : option float64 :=
  if String.eqb s "inf" then Some PosInf
  else if String.eqb s "-inf" then Some NegInf
  else if String.eqb s "nan" then Some NaN
  else match s with
       | String "-"%char t =>
           match parse_unsigned t with Some q => Some (Finite (- q)%Qc) | None => None end
       | _ =>
           match parse_unsigned s with Some q => Some (Finite q) | None => None end
       end.

End Cleaning.

(** ** Loading and cleaning [df_intel]

    The first statements of the script: the customer table is loaded
    through the cached loader and cleaned before anything reads it.
    The loader hands out a copy of the cached frame, so the cleaning
    runs on every render and never changes the cache. *)

Module Page.

#[global] Instance result_fmap : FMap result :=
  fun A B f m => match m with Ok a => Ok (f a) | Raise e => Raise e end.

Definition load_df_intel (read_sql_query : Loader.query -> Z -> result Frame)
  (parse_number : string -> option float64) (now : Z) (s : Loader.loader)
  : result Frame * Loader.loader :=
  let '(loaded, s') :=
    Loader.load_gold_data read_sql_query "customer_intelligence" now s in
  (Cleaning.clean_frame parse_number <$> loaded, s').

End Page.

(** ** Column operations shared by the report sections *)

Module Series.

(** [Series.sum()]: NaN values are skipped; the sum of no value is 0.0 *)
Definition nansum (l : list float64) : float64 :=
  fsum (List.filter (fun x => negb (is_nan x)) l).

(** [Series.mean()]: the mean of the values that are not NaN; NaN when
    there is none *)
Definition nanmean (l : list float64) : float64 :=
  let present := List.filter (fun x => negb (is_nan x)) l in
  match present with
  | [] => NaN
  | _ => fdiv (fsum present) (of_Z (Z.of_nat (length present)))
  end.

(** the distinct values of a column, in order of first appearance:
    [Series.unique()] *)
Fixpoint unique {A : Type} `{EqDecision A} (l : list A) : list A :=
  match l with
  | [] => []
  | a :: t => a :: List.filter (fun b => negb (bool_decide (b = a))) (unique t)
  end.

(** [Series.nunique()] *)
Definition nunique {A : Type} `{EqDecision A} (l : list A) : nat :=
  length (unique l).

Section Sort.

Context {A : Type}.

(** [ord a b]: [a] may stand before [b] *)
Variable ord : A -> A -> bool.

Fixpoint insert_sorted (a : A) (l : list A) : list A :=
  match l with
  | [] => [a]
  | b :: t => if ord a b then a :: b :: t else b :: insert_sorted a t
  end.

(** a stable sort (pandas sorts with an unstable quicksort by
    default; rows with equal keys may come in another order there) *)
Definition sort_by (l : list A) : list A :=
  fold_right insert_sorted [] l.

End Sort.

(** the order of [sort_values(key, ascending)] on keys: missing values
    (NaN) are placed last whatever the direction *)
Definition key_ord (ascending : bool) (x y : float64) : bool :=
  if is_nan y then true
  else if is_nan x then false
  else if ascending then fleb x y else fleb y x.

Definition sort_values {A : Type} (key : A -> float64) (ascending : bool)
  (l : list A) : list A :=
  sort_by (fun a b => key_ord ascending (key a) (key b)) l.

(** [groupby(keys)[column].sum().reset_index()] on rows of any table:
    one row per distinct key, the keys sorted, each with the
    NaN-skipping sum of the column over its rows *)
Definition group_sum {R K : Type} `{EqDecision K} (ord : K -> K -> bool)
  (key : R -> K) (column : R -> float64) (df : list R) : list (K * float64) :=
  map (fun k =>
         (k, nansum (map column (List.filter (fun r => bool_decide (key r = k)) df))))
      (sort_by ord (unique (map key df))).

(** [.iloc[-1]], the last row: IndexError when there is none *)
Definition iloc_last {A : Type} (l : list A) : result A :=
  match rev l with
  | [] => Raise IndexError
  | a :: _ => Ok a
  end.

(** [.iloc[1]], the second row: IndexError when there are fewer than two *)
Definition iloc1 {A : Type} (l : list A) : result A :=
  match l with
  | _ :: b :: _ => Ok b
  | _ => Raise IndexError
  end.

End Series.

(** ** Widgets drawn on the page *)

Record gap_row : Type := {
  g_user_id : string;
  g_current_clv : string;
  g_recency : float64;
  g_frequency : float64
}.

Inductive widget : Type :=
| Caption (text : string)
| Metric (label value : string) (delta : option string)
| GapTable (rows : list gap_row)
| Chart (title : string) (points : list (string * float64))
| Markdown (text : string).

(** ** Division of two Python ints

    [a / b] on ints gives a float and raises ZeroDivisionError when [b]
    is 0 (the float columns of pandas do not raise, see [fdiv]). *)

Inductive quotient : Type :=
| Quotient (x : float64)
| ZeroDivisionError.

Definition int_truediv (a b : Z) : quotient :=
  if b =? 0 then ZeroDivisionError else Quotient (fdiv (of_Z a) (of_Z b)).

(** ** 1.-3. Customer intelligence: top customers and the churn gap *)

Module Intel.

(** a row of [customer_intelligence] as loaded *)
Record raw_row : Type := {
  r_user_id : string;
  r_clv_tier : string;
  r_segment : string;
  r_current_clv : cell;
  r_monetary_value : cell;
  r_frequency : cell;
  r_recency : cell;
  r_avg_gap_between_orders : cell;
  r_avg_spend_change_pct : cell
}.

(** a row of [df_intel] after the data cleaning *)
Record row : Type := {
  user_id : string;
  clv_tier : string;
  segment : string;
  current_clv : float64;
  monetary_value : float64;
  frequency : float64;
  recency : float64;
  avg_gap_between_orders : float64;
  avg_spend_change_pct : float64
}.

(** the columns of a table given by rows *)
Definition frame_of (rows : list raw_row) : Frame :=
  list_to_map
    [("user_id", map (fun r => CText (r_user_id r)) rows);
     ("clv_tier", map (fun r => CText (r_clv_tier r)) rows);
     ("segment", map (fun r => CText (r_segment r)) rows);
     ("current_clv", map r_current_clv rows);
     ("monetary_value", map r_monetary_value rows);
     ("frequency", map r_frequency rows);
     ("recency", map r_recency rows);
     ("avg_gap_between_orders", map r_avg_gap_between_orders rows);
     ("avg_spend_change_pct", map r_avg_spend_change_pct rows)]%string.

Section WithParser.

Variable parse_number : string -> option float64.

(** the data cleaning, seen row by row *)
Definition clean_row (r : raw_row) : row :=
  let clean := Cleaning.clean_value parse_number in
  {| user_id := r_user_id r;
     clv_tier := r_clv_tier r;
     segment := r_segment r;
     current_clv := clean (r_current_clv r);
     monetary_value := clean (r_monetary_value r);
     frequency := clean (r_frequency r);
     recency := clean (r_recency r);
     avg_gap_between_orders := clean (r_avg_gap_between_orders r);
     avg_spend_change_pct := clean (r_avg_spend_change_pct r) |}.

Definition df_intel (loaded : list raw_row) : list row :=
  map clean_row loaded.

End WithParser.

(** [df_intel.sort_values("current_clv", ascending=False).head(top_n)] *)
Definition df_top_customers (top_n : nat) (df_intel : list row) : list row :=
  firstn top_n (Series.sort_values current_clv false df_intel).

(** [(df_intel['clv_tier'] == 'High') & (df_intel['segment'] == 'Churn Risk')] *)
Definition in_gap (r : row) : bool :=
  String.eqb (clv_tier r) "High" && String.eqb (segment r) "Churn Risk".

Definition df_gap (df_intel : list row) : list row :=
  List.filter in_gap df_intel.

Definition gap_caption : string :=
  "These are customers in the High CLV Tier who are currently marked as Churn Risk, for marketing purposes.".

(** [df_display]: four columns, the dollar column formatted *)
Definition df_display (df_gap : list row) : list gap_row :=
  map (fun r => {| g_user_id := user_id r;
                   g_current_clv := ("$" +:+ Fmt.format_f true 2 (current_clv r))%string;
                   g_recency := recency r;
                   g_frequency := frequency r |}) df_gap.

(** the gap deep dive: the caption, then the table when [df_gap] is not
    empty *)
Definition gap_view (df_intel : list row) : result (list widget) :=
  let gap := df_gap df_intel in
  match gap with
  | [] => Ok [Caption gap_caption]
  | _ => Ok [Caption gap_caption;
             GapTable (Series.sort_values g_recency false (df_display gap))]
  end.

(** *** 1a. Average CLV by tier *)

(** [df_intel[df_intel['clv_tier'] == tier]] *)
Definition tier_rows (tier : string) (df_intel : list row) : list row :=
  List.filter (fun r => String.eqb (clv_tier r) tier) df_intel.

(** [df_intel[df_intel['clv_tier'] == tier]['current_clv'].mean()] *)
Definition avg_clv (tier : string) (df_intel : list row) : float64 :=
  Series.nanmean (map current_clv (tier_rows tier df_intel)).

Definition tier_metric (label : string) (avg : float64) : widget :=
  Metric label ("$" +:+ Fmt.format_f true 2 avg)%string None.

Definition clv_kpis (df_intel : list row) : list widget :=
  [tier_metric "High Tier Avg" (avg_clv "High" df_intel);
   tier_metric "Medium Tier Avg" (avg_clv "Medium" df_intel);
   tier_metric "Low Tier Avg" (avg_clv "Low" df_intel)].

(** *** 2a. Segment overview *)

(** [len(df_intel[df_intel['segment'] == name])] *)
Definition segment_count (name : string) (df_intel : list row) : nat :=
  length (List.filter (fun r => String.eqb (segment r) name) df_intel).

Definition total_customers (df_intel : list row) : nat := length df_intel.
Definition vips : list row -> nat := segment_count "VIP".
Definition new_custs : list row -> nat := segment_count "New Customer".
Definition churn_risk : list row -> nat := segment_count "Churn Risk".
Definition standard : list row -> nat := segment_count "Standard".

(** [(churn_risk / total_customers) * 100], on two ints *)
Definition churn_risk_pct (df_intel : list row) : quotient :=
  match int_truediv (Z.of_nat (churn_risk df_intel))
                    (Z.of_nat (total_customers df_intel)) with
  | Quotient x => Quotient (fmul x (of_Z 100))
  | ZeroDivisionError => ZeroDivisionError
  end.

(** *** 3. Recent activity of the High tier *)

Definition df_high_clv : list row -> list row := tier_rows "High".

(** [len(df_high_clv[df_high_clv['frequency'] == 0])] *)
Definition at_risk_count (df_intel : list row) : nat :=
  length (List.filter (fun r => feqb (frequency r) zero) (df_high_clv df_intel)).

(** [len(df_high_clv[df_high_clv['frequency'] > 0])] *)
Definition active_count (df_intel : list row) : nat :=
  length (List.filter (fun r => fltb zero (frequency r)) (df_high_clv df_intel)).

Definition total_high (df_intel : list row) : nat := length (df_high_clv df_intel).

(** the two slices of the activity pie *)
Definition activity_data (df_intel : list row) : list (string * nat) :=
  [("Active (Last 6m)", active_count df_intel);
   ("Inactive (Last 6m)", at_risk_count df_intel)]%string.

End Intel.

(** ** 1c. CLV by segment over time *)

Module Rolling.

(** a row of [customer_rolling_metrics] *)
Record row : Type := {
  user_id : string;
  order_date : Z;
  running_clv : float64
}.

(** a row of [df_rolling_segmented] *)
Record segmented : Type := {
  s_user_id : string;
  s_order_date : Z;
  s_running_clv : float64;
  s_clv_tier : string
}.

(** [df_rolling.merge(df_intel[['user_id', 'clv_tier']], on='user_id')]:
    an inner join, in the order of the left rows; a rolling row comes
    once for each customer row with its [user_id] *)
Definition merge (df_rolling : list row) (df_intel : list Intel.row)
  : list segmented :=
  flat_map
    (fun r =>
       map (fun c => {| s_user_id := user_id r;
                        s_order_date := order_date r;
                        s_running_clv := running_clv r;
                        s_clv_tier := Intel.clv_tier c |})
           (List.filter (fun c => String.eqb (Intel.user_id c) (user_id r)) df_intel))
    df_rolling.

(** group keys come out sorted: by date, then by tier *)
Definition key_leb (a b : Z * string) : bool :=
  (a.1 <? b.1) || ((a.1 =? b.1) && String.leb a.2 b.2).

Record trend_row : Type := {
  t_order_date : Z;
  t_clv_tier : string;
  t_running_clv : float64
}.

(** [groupby(['order_date', 'clv_tier'])['running_clv'].sum().reset_index()] *)
Definition clv_trend (df_rolling_segmented : list segmented) : list trend_row :=
  map (fun kv => {| t_order_date := kv.1.1;
                    t_clv_tier := kv.1.2;
                    t_running_clv := kv.2 |})
      (Series.group_sum key_leb (fun r => (s_order_date r, s_clv_tier r))
         s_running_clv df_rolling_segmented).

(** [plot_segment_trend]: the rows that the chart of one tier draws *)
Definition segment_data (df : list trend_row) (tier : string) : list trend_row :=
  List.filter (fun r => String.eqb (t_clv_tier r) tier) df.

End Rolling.

(** ** 4.-5. Sales trends and the per-location rollup *)

Module Calendar.

(** Dates are day numbers, day 0 being 1970-01-01 (a Thursday). *)

(** Monday is 0, Sunday is 6 *)
Definition weekday (d : Z) : Z := (d + 3) mod 7.

(** frequency [W] (weeks ending on Sunday): the Sunday on or after [d] *)
Definition week_end (d : Z) : Z := d + (6 - weekday d).

(** proleptic Gregorian calendar: year, month and day of a day number *)
Definition civil_from_days (z : Z) : Z * Z * Z :=
  let z := z + 719468 in
  let era := z / 146097 in
  let doe := z - era * 146097 in
  let yoe := (doe - doe / 1460 + doe / 36524 - doe / 146096) / 365 in
  let y := yoe + era * 400 in
  let doy := doe - (365 * yoe + yoe / 4 - yoe / 100) in
  let mp := (5 * doy + 2) / 153 in
  let d := doy - (153 * mp + 2) / 5 + 1 in
  let m := if mp <? 10 then mp + 3 else mp - 9 in
  (if m <=? 2 then y + 1 else y, m, d).

Definition days_from_civil (y m d : Z) : Z :=
  let y := if m <=? 2 then y - 1 else y in
  let era := y / 400 in
  let yoe := y - era * 400 in
  let doy := (153 * (if 2 <? m then m - 3 else m + 9) + 2) / 5 + d - 1 in
  let doe := yoe * 365 + yoe / 4 - yoe / 100 + doy in
  era * 146097 + doe - 719468.

(** frequency [M] (calendar months): the last day of the month of [d] *)
Definition month_end (d : Z) : Z :=
  let '(y, m, _) := civil_from_days d in
  (if m =? 12 then days_from_civil (y + 1) 1 1 else days_from_civil y (m + 1) 1) - 1.

End Calendar.

Module Trends.

(** a row of [location_sales_trends] as loaded *)
Record raw_row : Type := {
  r_restaurant_id : string;
  r_order_date : Z;
  r_item_category : string;
  r_daily_revenue : cell;
  r_daily_order_count : float64
}.

(** a row of [df_trends] once the date and revenue columns are prepared;
    every row has its date and its restaurant *)
Record row : Type := {
  restaurant_id : string;
  order_date : Z;
  item_category : string;
  daily_revenue : float64;
  daily_order_count : float64
}.

Section WithParser.

Variable parse_number : string -> option float64.

(** [pd.to_numeric(df_trends['daily_revenue'], errors='coerce')]:
    what cannot be parsed stays NaN here *)
Definition prepare_row (r : raw_row) : row :=
  {| restaurant_id := r_restaurant_id r;
     order_date := r_order_date r;
     item_category := r_item_category r;
     daily_revenue := Cleaning.to_numeric_coerce parse_number (r_daily_revenue r);
     daily_order_count := r_daily_order_count r |}.

Definition df_trends (loaded : list raw_row) : list row :=
  map prepare_row loaded.

End WithParser.

Inductive time_grain : Type := Daily | Weekly | Monthly.

(** the label of the time bucket of a date: the date itself,
    [pd.Grouper(freq='W')] or [pd.Grouper(freq='M')] *)
Definition time_bucket (g : time_grain) (d : Z) : Z :=
  match g with
  | Daily => d
  | Weekly => Calendar.week_end d
  | Monthly => Calendar.month_end d
  end.

(** [df_trends[df_trends['restaurant_id'].isin(selected_locations)]] *)
Definition df_filtered (selected_locations : list string) (df_trends : list row)
  : list row :=
  List.filter (fun r => bool_decide (restaurant_id r ∈ selected_locations)) df_trends.

(** group keys come out sorted: by date, then by restaurant *)
Definition key_leb (a b : Z * string) : bool :=
  (a.1 <? b.1) || ((a.1 =? b.1) && String.leb a.2 b.2).

(** [groupby(keys)[column].sum().reset_index()]: one row per distinct
    key, holding the NaN-skipping sum of the column over the rows of the
    key *)
Definition groupby_sum {K : Type} `{EqDecision K} (ord : K -> K -> bool)
  (key : row -> K) (column : row -> float64) (df : list row)
  : list (K * float64) :=
  map (fun k =>
         (k, Series.nansum
               (map column (List.filter (fun r => bool_decide (key r = k)) df))))
      (Series.sort_by ord (Series.unique (map key df))).

Record plot_row : Type := {
  p_order_date : Z;
  p_restaurant_id : string;
  p_daily_revenue : float64
}.

(** the three branches on [time_grain] differ by the date grouper only *)
Definition df_plot (g : time_grain) (selected_locations : list string)
  (df_trends : list row) : list plot_row :=
  map (fun kv => {| p_order_date := kv.1.1;
                    p_restaurant_id := kv.1.2;
                    p_daily_revenue := kv.2 |})
      (groupby_sum key_leb
         (fun r => (time_bucket g (order_date r), restaurant_id r))
         daily_revenue
         (df_filtered selected_locations df_trends)).

(** *** Top-performing locations *)

Record store_perf : Type := {
  sp_restaurant_id : string;
  total_revenue : float64;
  avg_daily_revenue : float64;
  avg_daily_orders : float64;
  days_active : nat;
  avg_order_value : float64
}.

(** the divisor of the derived average order value *)
Definition aov_divisor (avg_daily_orders : float64) (days_active : nat) : float64 :=
  fmul avg_daily_orders (of_Z (Z.of_nat days_active)).

(** the aggregation of the rows of one restaurant, and the derived
    [avg_order_value] column *)
Definition aggregate (id : string) (rows : list row) : store_perf :=
  let total := Series.nansum (map daily_revenue rows) in
  let orders := Series.nanmean (map daily_order_count rows) in
  let days := Series.nunique (map order_date rows) in
  {| sp_restaurant_id := id;
     total_revenue := total;
     avg_daily_revenue := Series.nanmean (map daily_revenue rows);
     avg_daily_orders := orders;
     days_active := days;
     avg_order_value := fdiv total (aov_divisor orders days) |}.

(** [groupby('restaurant_id').agg(...)], the new column, and the
    ranking by total revenue *)
Definition df_store_perf (df_trends : list row) : list store_perf :=
  Series.sort_values total_revenue false
    (map (fun id =>
            aggregate id
              (List.filter (fun r => bool_decide (restaurant_id r = id)) df_trends))
         (Series.sort_by String.leb (Series.unique (map restaurant_id df_trends)))).

(** *** The controls and the category chart of section 4 *)

(** [df_trends['restaurant_id'].nunique()] *)
Definition unique_locations (df_trends : list row) : nat :=
  Series.nunique (map restaurant_id df_trends).

(** the options of the multiselect, [df_trends['restaurant_id'].unique()] *)
Definition location_options (df_trends : list row) : list string :=
  Series.unique (map restaurant_id df_trends).

(** its default, the first three options *)
Definition default_locations (df_trends : list row) : list string :=
  firstn 3 (location_options df_trends).

(** [df_filtered.groupby('item_category')['daily_revenue'].sum()
    .sort_values(ascending=False).reset_index()] *)
Definition category_mix (selected_locations : list string) (df_trends : list row)
  : list (string * float64) :=
  Series.sort_values snd false
    (Series.group_sum String.leb item_category daily_revenue
       (df_filtered selected_locations df_trends)).

(** *** Best, worst and second store of section 5 *)

Record leaderboard : Type := {
  best_store : store_perf;
  worst_store : store_perf;
  second_location : store_perf;
  fleet_avg : float64;
  gap_to_second : float64;
  pct_above_avg : float64
}.

(** the rows read with [.iloc[0]], [.iloc[-1]] and [.iloc[1]], and the
    numbers of the insight *)
Definition leaderboard_insight (perf : list store_perf) : result leaderboard :=
  best ← iloc0 perf;
  worst ← Series.iloc_last perf;
  top ← iloc0 perf;
  second ← Series.iloc1 perf;
  let avg := Series.nanmean (map total_revenue perf) in
  mret {| best_store := best;
          worst_store := worst;
          second_location := second;
          fleet_avg := avg;
          gap_to_second := fsub (total_revenue top) (total_revenue second);
          pct_above_avg :=
            fmul (fdiv (fsub (total_revenue top) avg) avg) (of_Z 100) |}.

End Trends.

(** ** 6. Loyalty program impact *)

Module Loyalty.

(** the encodings in which the warehouse may return a boolean *)
Inductive flag : Type :=
| FBool (b : bool)
| FInt (n : Z)
| FText (s : string).

Record raw_row : Type := {
  r_is_loyalty : flag;
  r_avg_order_value : float64;
  r_repeat_order_rate : float64;
  r_total_lifetime_value : float64;
  r_total_customers : float64
}.

Record row : Type := {
  is_loyalty : string;
  Status : option string;
  avg_order_value : float64;
  repeat_order_rate : float64;
  total_lifetime_value : float64;
  total_customers : float64
}.

Definition lower_ascii (c : ascii) : ascii :=
  let n := nat_of_ascii c in
  if (65 <=? n)%nat && (n <=? 90)%nat then ascii_of_nat (n + 32) else c.

Fixpoint lower (s : string) : string :=
  match s with
  | EmptyString => EmptyString
  | String c t => String (lower_ascii c) (lower t)
  end.

(** [.astype(str).str.lower()] *)
Definition astype_str_lower (f : flag) : string :=
  match f with
  | FBool true => "true"
  | FBool false => "false"
  | FInt n => pretty n
  | FText s => lower s
  end.

(** [.map({'true': ..., '1': ..., 'false': ..., '0': ...})]; a value
    that is not a key of the dictionary has no status *)
Definition status_of (s : string) : option string :=
  if String.eqb s "true" || String.eqb s "1" then Some "Loyalty Member"%string
  else if String.eqb s "false" || String.eqb s "0" then Some "Non-Member"%string
  else None.

Definition prepare_row (r : raw_row) : row :=
  let s := astype_str_lower (r_is_loyalty r) in
  {| is_loyalty := s;
     Status := status_of s;
     avg_order_value := r_avg_order_value r;
     repeat_order_rate := r_repeat_order_rate r;
     total_lifetime_value := r_total_lifetime_value r;
     total_customers := r_total_customers r |}.

Definition df_loyalty (loaded : list raw_row) : list row :=
  map prepare_row loaded.

(** [df_loyalty[df_loyalty['Status'] == status].iloc[0]] *)
Definition stats_of (status : string) (df : list row) : result row :=
  iloc0 (List.filter (fun r => bool_decide (Status r = Some status)) df).

Definition member_stats : list row -> result row := stats_of "Loyalty Member".
Definition non_member_stats : list row -> result row := stats_of "Non-Member".

(** [((a - b) / b) * 100] *)
Definition lift_pct (a b : float64) : float64 :=
  fmul (fdiv (fsub a b) b) (of_Z 100).

Definition aov_diff (df : list row) : result float64 :=
  m ← member_stats df;
  n ← non_member_stats df;
  mret (lift_pct (avg_order_value m) (avg_order_value n)).

Definition repeat_diff (df : list row) : result float64 :=
  m ← member_stats df;
  n ← non_member_stats df;
  mret (lift_pct (repeat_order_rate m) (repeat_order_rate n)).

Definition delta_text (x : float64) : string :=
  (Fmt.format_f false 1 x +:+ "% vs Non-Member")%string.

(** the three executive metrics *)
Definition executive_metrics (df : list row) : result (list widget) :=
  m ← member_stats df;
  a ← aov_diff df;
  r ← repeat_diff df;
  let loyalty_share :=
    fmul (fdiv (total_lifetime_value m)
               (Series.nansum (map total_lifetime_value df)))
         (of_Z 100) in
  mret [Metric "Member AOV"
               ("$" +:+ Fmt.format_f true 2 (avg_order_value m))%string
               (Some (delta_text a));
        Metric "Repeat Purchase Rate"
               (Fmt.format_f false 2 (repeat_order_rate m) +:+ "x")%string
               (Some (delta_text r));
        Metric "Loyalty Revenue Share"
               (Fmt.format_f false 1 loyalty_share +:+ "%")%string
               None].

(** *** LTV by loyalty status *)

(** [df_loyalty['total_lifetime_value'] / df_loyalty['total_customers']] *)
Definition avg_ltv_per_customer (r : row) : float64 :=
  fdiv (total_lifetime_value r) (total_customers r).

(** [df_loyalty[df_loyalty['Status'] == status]['avg_ltv_per_customer'].iloc[0]] *)
Definition ltv_of (status : string) (df : list row) : result float64 :=
  avg_ltv_per_customer <$> stats_of status df.

Definition member_ltv : list row -> result float64 := ltv_of "Loyalty Member".
Definition non_member_ltv : list row -> result float64 := ltv_of "Non-Member".

(** the section from its metrics to the last insight: the metrics, then
    the two LTV figures as the insight prints them *)
Definition loyalty_section (df : list row) : result (list widget * (string * string)) :=
  metrics ← executive_metrics df;
  m ← member_ltv df;
  n ← non_member_ltv df;
  mret (metrics, (Fmt.format_f true 2 n, Fmt.format_f true 2 m)).

End Loyalty.

(** ** 7. Pricing and discount effectiveness *)

Module Discount.

Record disc_row : Type := {
  d_Status : string;
  d_Order_Count : Z;
  d_Total_Revenue : float64;
  d_AOV : float64
}.

(** the literal [discount_data] *)
Definition discount_data : list disc_row :=
  [ {| d_Status := "Discounted"; d_Order_Count := 9150;
       d_Total_Revenue := dec 469568417 100; d_AOV := dec 11387 100 |};
    {| d_Status := "Full Price"; d_Order_Count := 122178;
       d_Total_Revenue := dec 1334359960 100; d_AOV := dec 5283 100 |} ].

Definition df_disc : list disc_row := discount_data.

Definition aov_lift : float64 :=
  fmul (fdiv (fsub (dec 11387 100) (dec 5283 100)) (dec 5283 100)) (of_Z 100).

(** an integer column: its sum is an integer *)
Definition total_orders : Z :=
  fold_right Z.add 0 (map d_Order_Count df_disc).

Definition total_rev : float64 :=
  Series.nansum (map d_Total_Revenue df_disc).

Definition disc_order_pct : float64 :=
  fmul (fdiv (of_Z 9150) (of_Z total_orders)) (of_Z 100).

Definition disc_rev_pct : float64 :=
  fmul (fdiv (of_Z 4695684) total_rev) (of_Z 100).

Definition pct_text (x : float64) : string :=
  (Fmt.format_f false 1 x +:+ "%")%string.

(** what the section draws.  [df_discount] is the table loaded from
    [discount_effectiveness]; it is in scope and not read. *)
Definition discount_section (df_discount : Frame) : list widget :=
  [Chart "Average Order Value ($)" (map (fun r => (d_Status r, d_AOV r)) df_disc);
   Chart "Share of Total Revenue" (map (fun r => (d_Status r, d_Total_Revenue r)) df_disc);
   Markdown "### Discount ROI";
   Metric "AOV Lift from Discounts" (pct_text aov_lift) None;
   Metric "Order Share" (pct_text disc_order_pct) None;
   Metric "Revenue Contribution" (pct_text disc_rev_pct) None].

(** the three numbers behind the metrics *)
Definition discount_metrics (df_discount : Frame) : float64 * float64 * float64 :=
  (aov_lift, disc_order_pct, disc_rev_pct).

End Discount.

(** ** The literal computations in binary64

    The lift and the discount shares again, this time with the
    machine's float64 arithmetic, rounding included. *)

Module Binary64.

Import PrimFloat.
#[local] Set Warnings "-inexact-float".
Local Open Scope float_scope.

(** [((a - b) / b) * 100] *)
Definition lift_pct (a b : float) : float := ((a - b) / b) * 100.

Definition aov_lift : float := ((113.87 - 52.83) / 52.83) * 100.

(** [9150 + 122178], a sum of integers *)
Definition total_orders : float := 131328.

Definition total_rev : float := 4695684.17 + 13343599.60.

Definition disc_order_pct : float := (9150 / total_orders) * 100.

Definition disc_rev_pct : float := (4695684 / total_rev) * 100.

(** [lo <= x < hi] *)
Definition within (lo hi x : float) : bool := (lo <=? x) && (x <? hi).

(** *** The trend aggregation on machine floats

    [df_plot] once more, the revenue being a machine float and each sum
    added up from left to right, as the program adds. *)

Record trend_row : Type := {
  b_restaurant_id : string;
  b_order_date : Z;
  b_daily_revenue : float
}.

(** [Series.sum()]: NaN values are skipped *)
Definition nansum (l : list float) : float :=
  fold_left (fun acc x => if is_nan x then acc else acc + x) l 0.

Definition df_filtered (selected_locations : list string) (df_trends : list trend_row)
  : list trend_row :=
  List.filter (fun r => bool_decide (b_restaurant_id r ∈ selected_locations)) df_trends.

Definition df_plot (g : Trends.time_grain) (selected_locations : list string)
  (df_trends : list trend_row) : list (Z * string * float) :=
  let filtered := df_filtered selected_locations df_trends in
  let key := fun r => (Trends.time_bucket g (b_order_date r), b_restaurant_id r) in
  map (fun k =>
         (k, nansum (map b_daily_revenue
                       (List.filter (fun r => bool_decide (key r = k)) filtered))))
      (Series.sort_by Trends.key_leb (Series.unique (map key filtered))).


End Binary64.

(** ** Sample tables

    Small tables on which the definitions above are run. *)

Module Sample.

Definition intel_row (id tier seg : string) (clv freq rec : cell) : Intel.raw_row :=
  {| Intel.r_user_id := id;
     Intel.r_clv_tier := tier;
     Intel.r_segment := seg;
     Intel.r_current_clv := clv;
     Intel.r_monetary_value := clv;
     Intel.r_frequency := freq;
     Intel.r_recency := rec;
     Intel.r_avg_gap_between_orders := CNull;
     Intel.r_avg_spend_change_pct := CText "n/a" |}.

(** seven customers; the lifetime values come as text, numbers, a null
    and a text that is not a number *)
Definition intel_loaded : list Intel.raw_row :=
  [ intel_row "u1" "High" "VIP" (CText "5120.50") (CInt 12) (CInt 3);
    intel_row "u2" "Medium" "Standard" (CFloat (dec 98050 100)) (CInt 4) (CInt 20);
    intel_row "u3" "High" "Churn Risk" (CText "7300") (CInt 0) (CInt 150);
    intel_row "u4" "Low" "New Customer" CNull (CInt 1) (CInt 2);
    intel_row "u5" "Low" "Churn Risk" (CText "abc") (CInt 0) (CInt 170);
    intel_row "u6" "High" "Churn Risk" (CInt 6400) (CText "0") (CText "95.5");
    intel_row "u7" "Medium" "VIP" (CFloat (dec 215075 100)) (CInt 9) (CInt 1) ]%string.

(** two customers, none in the High tier and at churn risk at once *)
Definition intel_no_gap : list Intel.row :=
  [ {| Intel.user_id := "u1"; Intel.clv_tier := "High"; Intel.segment := "VIP";
       Intel.current_clv := dec 512050 100; Intel.monetary_value := dec 512050 100;
       Intel.frequency := of_Z 12; Intel.recency := of_Z 3;
       Intel.avg_gap_between_orders := zero; Intel.avg_spend_change_pct := zero |};
    {| Intel.user_id := "u5"; Intel.clv_tier := "Low"; Intel.segment := "Churn Risk";
       Intel.current_clv := zero; Intel.monetary_value := zero;
       Intel.frequency := zero; Intel.recency := of_Z 170;
       Intel.avg_gap_between_orders := zero; Intel.avg_spend_change_pct := zero |} ]%string.

(** a lifetime value column holding infinities *)
Definition intel_infinite : Frame :=
  {[ "current_clv"%string := [CFloat PosInf; CText "-inf"; CText "abc"; CInt 7] ]}.

(** a warehouse that knows the customer table only *)
Definition warehouse (table : Frame) (q : Loader.query) (now : Z) : result Frame :=
  if String.eqb (Loader.q_sql q) "SELECT * FROM customer_intelligence"
  then Ok table
  else Raise (QueryFailed "TABLE_NOT_FOUND").

Definition trend_row (id : string) (day : Z) (revenue orders : float64) : Trends.row :=
  {| Trends.restaurant_id := id;
     Trends.order_date := day;
     Trends.item_category := "Breakfast";
     Trends.daily_revenue := revenue;
     Trends.daily_order_count := orders |}.

(** day 19774 is 2024-02-21; restaurant R2 has revenue on a day for
    which no order was counted *)
Definition trends : list Trends.row :=
  [ trend_row "R1" 19774 (dec 120050 100) (of_Z 40);
    trend_row "R2" 19774 (of_Z 10) (of_Z 0);
    trend_row "R1" 19775 (dec 98000 100) (of_Z 35);
    trend_row "R1" 19781 NaN (of_Z 3);
    trend_row "R3" 19790 (of_Z 0) (of_Z 0) ]%string.

Definition loyalty_row (f : Loyalty.flag) (aov rate : float64) : Loyalty.raw_row :=
  {| Loyalty.r_is_loyalty := f;
     Loyalty.r_avg_order_value := aov;
     Loyalty.r_repeat_order_rate := rate;
     Loyalty.r_total_lifetime_value := of_Z 1000;
     Loyalty.r_total_customers := of_Z 10 |}.

(** member AOV 45.00, non-member AOV 52.83 *)
Definition loyalty : list Loyalty.row :=
  Loyalty.df_loyalty
    [ loyalty_row (Loyalty.FText "TRUE") (dec 4500 100) (of_Z 3);
      loyalty_row (Loyalty.FInt 0) (dec 5283 100) (of_Z 2) ].

(** a non-member row without orders: its average order value is 0.0 *)
Definition loyalty_zero : list Loyalty.row :=
  Loyalty.df_loyalty
    [ loyalty_row (Loyalty.FBool true) (dec 4500 100) (of_Z 3);
      loyalty_row (Loyalty.FBool false) zero (of_Z 2) ].

End Sample.

(** * Properties *)

(** ** Float arithmetic *)

Section FloatFacts.

Lemma fadd_comm (x y : float64) : fadd x y = fadd y x.
Proof.
  destruct x, y; simpl; try reflexivity.
  f_equal. apply Qcplus_comm.
Qed.

Lemma fadd_zero_l (x : float64) : fadd zero x = x.
Proof.
  destruct x; simpl; try reflexivity.
  f_equal. apply Qcplus_0_l.
Qed.

Lemma fadd_zero_r (x : float64) : fadd x zero = x.
Proof. rewrite fadd_comm. apply fadd_zero_l. Qed.

Lemma sgn_zero : sgn (Q2Qc 0) = Eq.
Proof. reflexivity. Qed.

Lemma sgn_Eq (q : Qc) : sgn q = Eq <-> q = Q2Qc 0.
Proof. unfold sgn. symmetry. apply Qceq_alt. Qed.

(** dividing by 0.0 never gives a finite number *)
Lemma fdiv_zero (x : float64) :
  fdiv x zero =
    match x with
    | Finite a => inf_of_sign (sgn a)
    | PosInf => PosInf
    | NegInf => NegInf
    | NaN => NaN
    end.
Proof. destruct x; reflexivity. Qed.

Lemma fdiv_zero_not_finite (x : float64) : is_finite (fdiv x zero) = false.
Proof. rewrite fdiv_zero. destruct x; try reflexivity. destruct (sgn q); reflexivity. Qed.

Lemma fdiv_finite (a b : Qc) :
  b <> Q2Qc 0 -> fdiv (Finite a) (Finite b) = Finite (a / b)%Qc.
Proof.
  intros Hb. simpl. destruct (sgn b) eqn:E; try reflexivity.
  apply sgn_Eq in E. contradiction.
Qed.

Lemma fcompare_antisym (x y : float64) :
  fcompare y x = option_map CompOpp (fcompare x y).
Proof.
  destruct x, y; simpl; try reflexivity.
  f_equal. unfold Qccompare. symmetry. apply Qcompare_antisym.
Qed.

(** on values that are not NaN, [<=] is total *)
Lemma fleb_total (x y : float64) :
  is_nan x = false -> is_nan y = false -> fleb x y = true \/ fleb y x = true.
Proof.
  intros Hx Hy. unfold fleb. rewrite (fcompare_antisym x y).
  destruct x, y; try discriminate; simpl; auto.
  destruct (q ?= q0)%Qc; simpl; auto.
Qed.

Lemma fleb_finite (a b : Qc) : fleb (Finite a) (Finite b) = true <-> (a <= b)%Qc.
Proof.
  unfold fleb; simpl. rewrite Qcle_alt.
  destruct (a ?= b)%Qc; split; intros; congruence.
Qed.

Lemma fleb_trans (x y z : float64) :
  fleb x y = true -> fleb y z = true -> fleb x z = true.
Proof.
  destruct x, y, z; try (intros; reflexivity); try (intros; discriminate).
  rewrite !fleb_finite. apply Qcle_trans.
Qed.

End FloatFacts.

(** ** Sums, distinct values and sorting *)

Section SeriesFacts.

Import Series.

Lemma nansum_cons (x : float64) (l : list float64) :
  nansum (x :: l) = if is_nan x then nansum l else fadd x (nansum l).
Proof. unfold nansum. simpl. destruct (is_nan x); reflexivity. Qed.

Lemma nansum_nil : nansum [] = zero.
Proof. reflexivity. Qed.

Context {A : Type} `{EqDecision A}.

Lemma unique_In (l : list A) (x : A) : In x (unique l) <-> In x l.
Proof.
  induction l as [|a t IH]; cbn [unique In]; [tauto|].
  rewrite filter_In, IH.
  destruct (decide (x = a)) as [->|Hne].
  - tauto.
  - rewrite bool_decide_eq_false_2 by assumption. simpl.
    split; [intros [?|[? _]]|intros [?|?]]; auto; congruence.
Qed.

Lemma unique_NoDup (l : list A) : List.NoDup (unique l).
Proof.
  induction l as [|a t IH]; cbn [unique]; constructor.
  - rewrite filter_In. intros [_ H].
    rewrite bool_decide_eq_true_2 in H by reflexivity. discriminate.
  - apply List.NoDup_filter, IH.
Qed.

Variable ord : A -> A -> bool.

Lemma insert_sorted_perm (a : A) (l : list A) :
  Permutation (insert_sorted ord a l) (a :: l).
Proof.
  induction l as [|b t IH]; simpl; [reflexivity|].
  destruct (ord a b); [reflexivity|].
  rewrite IH. apply perm_swap.
Qed.

Lemma sort_by_perm (l : list A) : Permutation (sort_by ord l) l.
Proof.
  induction l as [|a t IH]; simpl; [reflexivity|].
  rewrite insert_sorted_perm. constructor. exact IH.
Qed.

Hypothesis ord_total : forall a b, ord a b = true \/ ord b a = true.

Lemma insert_sorted_sorted (a : A) (l : list A) :
  Sorted (fun x y => ord x y = true) l ->
  Sorted (fun x y => ord x y = true) (insert_sorted ord a l).
Proof.
  induction 1 as [|b t Ht IH Hb]; simpl.
  - repeat constructor.
  - destruct (ord a b) eqn:E.
    + constructor; [constructor; assumption|constructor; assumption].
    + constructor; [exact IH|].
      destruct (ord_total a b) as [Hab|Hba]; [congruence|].
      destruct t as [|c t']; simpl; [constructor; assumption|].
      destruct (ord a c); constructor; [assumption|].
      inversion Hb; assumption.
Qed.

Lemma sort_by_sorted (l : list A) :
  Sorted (fun x y => ord x y = true) (sort_by ord l).
Proof.
  induction l as [|a t IH]; simpl; [constructor|].
  apply insert_sorted_sorted, IH.
Qed.

End SeriesFacts.

(** ** Group-by splits the rows *)

Lemma filter_split {A : Type} (f : A -> bool) (l : list A) :
  Permutation (List.filter f l ++ List.filter (fun a => negb (f a)) l) l.
Proof.
  induction l as [|a t IH]; [reflexivity|].
  cbn [List.filter]. destruct (f a); cbn [negb app].
  - constructor. exact IH.
  - symmetry. apply Permutation_cons_app. symmetry. exact IH.
Qed.

Lemma flat_map_ext_in {A B : Type} (f g : A -> list B) (l : list A) :
  (forall a, In a l -> f a = g a) -> flat_map f l = flat_map g l.
Proof.
  induction l as [|a t IH]; intros H; [reflexivity|].
  cbn [flat_map]. rewrite (H a) by (left; reflexivity).
  f_equal. apply IH. intros b Hb. apply H. right. exact Hb.
Qed.

Section GroupFacts.

Context {K : Type} `{EqDecision K} {R : Type}.
Variable key : R -> K.

(** the rows of one key *)
Definition group_rows (df : list R) (k : K) : list R :=
  List.filter (fun r => bool_decide (key r = k)) df.

Lemma group_rows_other (df : list R) (k k' : K) :
  k <> k' ->
  group_rows (List.filter (fun r => negb (bool_decide (key r = k))) df) k'
  = group_rows df k'.
Proof.
  intros Hne. unfold group_rows. induction df as [|r t IH]; [reflexivity|].
  cbn [List.filter]. destruct (decide (key r = k)) as [E|E].
  - rewrite (bool_decide_eq_true_2 _ E). cbn [negb].
    rewrite bool_decide_eq_false_2 by congruence. exact IH.
  - rewrite (bool_decide_eq_false_2 _ E). cbn [negb List.filter].
    rewrite IH. reflexivity.
Qed.

(** over a duplicate-free list of keys that covers the rows, the groups
    hold every row exactly once *)
Lemma groups_permutation (keys : list K) (df : list R) :
  List.NoDup keys ->
  (forall r, In r df -> In (key r) keys) ->
  Permutation (flat_map (group_rows df) keys) df.
Proof.
  intros Hnd. revert df. induction Hnd as [|k t Hk Ht IH]; intros df Hcov.
  - destruct df as [|r df]; [reflexivity|]. destruct (Hcov r (or_introl eq_refl)).
  - cbn [flat_map].
    set (rest := List.filter (fun r => negb (bool_decide (key r = k))) df).
    assert (Hrest : flat_map (group_rows df) t = flat_map (group_rows rest) t).
    { apply flat_map_ext_in. intros k' Hk'. symmetry. apply group_rows_other.
      intros ->. exact (Hk Hk'). }
    rewrite Hrest, (IH rest).
    + apply filter_split.
    + intros r Hr. apply filter_In in Hr as [Hr Hne].
      destruct (Hcov r Hr) as [E|Hin]; [|exact Hin].
      rewrite bool_decide_eq_true_2 in Hne by (symmetry; exact E). discriminate.
Qed.


End GroupFacts.

Section TrendFacts.

Import Series Trends.

Lemma groupby_sum_keys {K : Type} `{EqDecision K} (ord : K -> K -> bool)
  (key : row -> K) (column : row -> float64) (df : list row) :
  map fst (groupby_sum ord key column df) = sort_by ord (unique (map key df)).
Proof.
  unfold groupby_sum. rewrite map_map. cbn [fst]. apply map_id.
Qed.





End TrendFacts.


(** ** Sorting by a float column *)

Lemma In_firstn {A : Type} (n : nat) (l : list A) (a : A) :
  In a (firstn n l) -> In a l.
Proof.
  intros H. rewrite <- (firstn_skipn n l). apply in_or_app. left. exact H.
Qed.

Section SortValuesFacts.

Import Series.

Lemma key_ord_total (ascending : bool) (x y : float64) :
  key_ord ascending x y = true \/ key_ord ascending y x = true.
Proof.
  unfold key_ord.
  destruct (is_nan y) eqn:Hy; [left; reflexivity|].
  destruct (is_nan x) eqn:Hx; [right; reflexivity|].
  destruct ascending; [|apply or_comm]; apply fleb_total; assumption.
Qed.

Context {A : Type}.
Variable key : A -> float64.

Lemma sort_values_perm (ascending : bool) (l : list A) :
  Permutation (sort_values key ascending l) l.
Proof. apply sort_by_perm. Qed.

Lemma sort_values_sorted (ascending : bool) (l : list A) :
  Sorted (fun a b => key_ord ascending (key a) (key b) = true)
         (sort_values key ascending l).
Proof.
  apply (sort_by_sorted (fun a b => key_ord ascending (key a) (key b))).
  intros a b. apply key_ord_total.
Qed.

(** descending order, on a column without missing values: every row
    has a key at least as large as the key of every later row *)
Definition descending (l : list A) : Prop :=
  StronglySorted (fun a b => fleb (key b) (key a) = true) l.

Lemma Sorted_descending (l : list A) :
  Forall (fun a => is_nan (key a) = false) l ->
  Sorted (fun a b => key_ord false (key a) (key b) = true) l ->
  descending l.
Proof.
  intros Hnn Hs. apply Sorted_StronglySorted.
  - intros a b c Hab Hbc. exact (fleb_trans _ _ _ Hbc Hab).
  - induction Hs as [|a t Ht IH Hhd]; constructor.
    + apply IH. inversion Hnn; assumption.
    + inversion Hnn as [|? ? Ha Hrest]; subst.
      destruct Hhd as [|b t' Hab]; constructor.
      inversion Hrest as [|? ? Hb _]; subst.
      unfold key_ord in Hab. rewrite Ha, Hb in Hab. exact Hab.
Qed.

Lemma descending_firstn (n : nat) (l : list A) :
  descending l -> descending (firstn n l).
Proof.
  unfold descending. intros Hs. revert n.
  induction Hs as [|a t Ht IH Ha]; intros [|n]; cbn [firstn]; try constructor.
  - apply IH.
  - rewrite List.Forall_forall in *. intros b Hb. apply Ha.
    eapply In_firstn. exact Hb.
Qed.

Lemma sort_values_descending (l : list A) :
  Forall (fun a => is_nan (key a) = false) l ->
  descending (sort_values key false l).
Proof.
  intros Hnn. apply Sorted_descending; [|apply sort_values_sorted].
  rewrite List.Forall_forall in *. intros a Ha. apply Hnn.
  eapply Permutation_in; [apply sort_values_perm|exact Ha].
Qed.

End SortValuesFacts.

Lemma NoDup_firstn {A : Type} (n : nat) (l : list A) :
  List.NoDup l -> List.NoDup (firstn n l).
Proof.
  intros H. rewrite <- (firstn_skipn n l) in H.
  exact (NoDup_app_remove_r _ _ H).
Qed.

(** ** Data cleaning *)

Section CleaningFacts.

Import Cleaning.

Variable parse_number : string -> option float64.

Lemma fillna_not_nan (x : float64) : is_nan (fillna zero x) = false.
Proof. unfold fillna. destruct (is_nan x) eqn:E; [reflexivity|exact E]. Qed.

Lemma clean_value_not_nan (c : cell) : is_nan (clean_value parse_number c) = false.
Proof. apply fillna_not_nan. Qed.

Lemma clean_value_unparsed (c : cell) :
  parses parse_number c = false -> clean_value parse_number c = zero.
Proof.
  unfold clean_value. destruct c; cbn [parses to_numeric_coerce]; try discriminate.
  - destruct (parse_number s); [discriminate|reflexivity].
  - reflexivity.
Qed.

(** a value that is a number and not NaN is kept as it is *)
Lemma clean_value_float (x : float64) :
  is_nan x = false -> clean_value parse_number (CFloat x) = x.
Proof. intros H. unfold clean_value, fillna. cbn. rewrite H. reflexivity. Qed.

End CleaningFacts.

(** ** Top customers *)

Lemma df_intel_not_nan (parse_number : string -> option float64)
  (loaded : list Intel.raw_row) :
  Forall (fun r => is_nan (Intel.current_clv r) = false)
         (Intel.df_intel parse_number loaded).
Proof.
  unfold Intel.df_intel. rewrite List.Forall_forall. intros r Hr.
  apply in_map_iff in Hr as [raw [<- _]]. apply clean_value_not_nan.
Qed.

(** C4.  For every N from 5 to 100 and every customer table, the top-N
    selection has min(N, number of rows) rows, all taken from the
    table, in descending order of [current_clv], and without a repeated
    [user_id] when the table has none. *)
Theorem df_top_customers_spec (parse_number : string -> option float64)
  (top_n : nat) (loaded : list Intel.raw_row) :
  (5 <= top_n <= 100)%nat ->
  let df_intel := Intel.df_intel parse_number loaded in
  let top := Intel.df_top_customers top_n df_intel in
  length top = Nat.min top_n (length loaded)
  /\ (forall r, In r top -> In r df_intel)
  /\ descending Intel.current_clv top
  /\ (List.NoDup (map Intel.r_user_id loaded) -> List.NoDup (map Intel.user_id top)).
Proof.
  intros _. cbv zeta. unfold Intel.df_top_customers.
  set (df := Intel.df_intel parse_number loaded).
  pose proof (sort_values_perm Intel.current_clv false df) as Hperm.
  repeat split.
  - rewrite length_firstn, (Permutation_length Hperm).
    unfold df, Intel.df_intel. rewrite length_map. reflexivity.
  - intros r Hr. eapply Permutation_in; [exact Hperm|].
    eapply In_firstn. exact Hr.
  - apply descending_firstn, sort_values_descending, df_intel_not_nan.
  - intros Hnd. rewrite <- firstn_map. apply NoDup_firstn.
    eapply Permutation_NoDup; [symmetry; apply Permutation_map, Hperm|].
    unfold df, Intel.df_intel. rewrite map_map. exact Hnd.
Qed.

(** ** The churn gap view *)

Lemma filter_none {A : Type} (f : A -> bool) (l : list A) :
  (forall a, In a l -> f a = false) -> List.filter f l = [].
Proof.
  induction l as [|a t IH]; intros H; [reflexivity|].
  cbn [List.filter]. rewrite (H a) by (left; reflexivity).
  apply IH. intros b Hb. apply H. right. exact Hb.
Qed.

(** the gap view raises on no table *)
Lemma gap_view_ok (df_intel : list Intel.row) :
  exists widgets, Intel.gap_view df_intel = Ok widgets.
Proof. unfold Intel.gap_view. destruct (Intel.df_gap df_intel); eauto. Qed.

(** C9.  When no customer is both in the High tier and in the Churn
    Risk segment, the gap selection is empty and the gap view draws its
    caption and nothing else, without raising: the table is skipped and
    no row of the empty selection is read. *)
Theorem gap_view_empty (df_intel : list Intel.row) :
  (forall r, In r df_intel ->
     ~ (Intel.clv_tier r = "High"%string /\ Intel.segment r = "Churn Risk"%string)) ->
  Intel.df_gap df_intel = []
  /\ Intel.gap_view df_intel = Ok [Caption Intel.gap_caption].
Proof.
  intros Hnone.
  assert (Hgap : Intel.df_gap df_intel = []).
  { apply filter_none. intros r Hr. unfold Intel.in_gap.
    apply not_true_is_false. intros Hb.
    apply andb_true_iff in Hb as [Ht Hs].
    apply String.eqb_eq in Ht, Hs. exact (Hnone r Hr (conj Ht Hs)). }
  split; [exact Hgap|]. unfold Intel.gap_view. rewrite Hgap. reflexivity.
Qed.

(** ** The cached table loader *)

Section LoaderFacts.

Import Loader.

Variable read_sql_query : query -> Z -> result Frame.

Lemma load_hit (table : string) (now : Z) (s : loader) (e : cache_entry) :
  cache s !! table = Some e ->
  now < ce_time e + ttl ->
  load_gold_data read_sql_query table now s = (Ok (ce_value e), s).
Proof.
  intros He Hfresh. unfold load_gold_data. rewrite He. unfold fresh.
  apply Z.ltb_lt in Hfresh. rewrite Hfresh. reflexivity.
Qed.

Lemma load_expired (table : string) (now : Z) (s : loader) (e : cache_entry) :
  cache s !! table = Some e ->
  ce_time e + ttl <= now ->
  load_gold_data read_sql_query table now s = fetch read_sql_query table now s.
Proof.
  intros He Hold. unfold load_gold_data. rewrite He. unfold fresh.
  apply Z.ltb_ge in Hold. rewrite Hold. reflexivity.
Qed.

Lemma load_absent (table : string) (now : Z) (s : loader) :
  cache s !! table = None ->
  load_gold_data read_sql_query table now s = fetch read_sql_query table now s.
Proof. intros He. unfold load_gold_data. rewrite He. reflexivity. Qed.

(** every fetch sends exactly one query, whatever the outcome *)
Lemma fetch_issued (table : string) (now : Z) (s : loader) :
  issued (fetch read_sql_query table now s).2 = select_all table :: issued s.
Proof. unfold fetch. destruct (read_sql_query _ _); reflexivity. Qed.


(** a failed query surfaces to the caller and stores nothing *)
Lemma fetch_raise (table : string) (now : Z) (s : loader) (e : exn) :
  read_sql_query (select_all table) now = Raise e ->
  fetch read_sql_query table now s
  = (Raise e, {| cache := cache s; issued := select_all table :: issued s |}).
Proof. intros H. unfold fetch. rewrite H. reflexivity. Qed.

(** after a call that returned a frame, the cache holds that frame
    under the table name, still fresh at the time of the call *)
Lemma load_ok_cached (table : string) (now : Z) (s s' : loader) (v : Frame) :
  load_gold_data read_sql_query table now s = (Ok v, s') ->
  exists fetched_at,
    cache s' !! table = Some {| ce_value := v; ce_time := fetched_at |}
    /\ now < fetched_at + ttl.
Proof.
  unfold load_gold_data, fetch, fresh.
  destruct (cache s !! table) as [e|] eqn:He.
  - destruct (now <? ce_time e + ttl) eqn:Hf.
    + intros [= <- <-]. exists (ce_time e). split.
      * rewrite He. destruct e; reflexivity.
      * apply Z.ltb_lt. exact Hf.
    + destruct (read_sql_query (select_all table) now); intros [= <- <-].
      exists now. cbn. rewrite lookup_insert_eq. split; [reflexivity|unfold ttl; lia].
  - destruct (read_sql_query (select_all table) now); intros [= <- <-].
    exists now. cbn. rewrite lookup_insert_eq. split; [reflexivity|unfold ttl; lia].
Qed.

(** tables are cached independently of each other *)
Lemma load_other_table (table other : string) (now : Z) (s : loader) :
  table <> other ->
  cache (load_gold_data read_sql_query table now s).2 !! other = cache s !! other.
Proof.
  intros Hne. unfold load_gold_data, fetch.
  destruct (cache s !! table) as [e|]; [destruct (fresh now e); [reflexivity|]|];
    destruct (read_sql_query _ _); cbn; try reflexivity;
    apply lookup_insert_ne; exact Hne.
Qed.


End LoaderFacts.

(** ** The cleaned frame *)

Lemma list_lookup_map {A B : Type} (f : A -> B) (l : list A) (i : nat) :
  map f l !! i = f <$> l !! i.
Proof.
  revert i. induction l as [|a t IH]; intros [|i]; cbn; try reflexivity. apply IH.
Qed.

Section CleanFrameFacts.

Import Cleaning.

Variable parse_number : string -> option float64.

(** what the cleaning does to one column *)
Definition cleaned (values : list cell) : list cell :=
  map (fun c => CFloat (clean_value parse_number c)) values.

Lemma cleaned_idem (values : list cell) : cleaned (cleaned values) = cleaned values.
Proof.
  unfold cleaned. rewrite map_map. apply map_ext. intros c.
  rewrite clean_value_float; [reflexivity|apply clean_value_not_nan].
Qed.

Lemma clean_column_same (df : Frame) (col : string) :
  clean_column parse_number df col !! col = cleaned <$> df !! col.
Proof.
  unfold clean_column. destruct (df !! col) as [values|] eqn:E.
  - rewrite lookup_insert_eq. reflexivity.
  - rewrite E. reflexivity.
Qed.

Lemma clean_column_other (df : Frame) (col c : string) :
  col <> c -> clean_column parse_number df col !! c = df !! c.
Proof.
  intros Hne. unfold clean_column. destruct (df !! col); [|reflexivity].
  apply lookup_insert_ne. exact Hne.
Qed.

Lemma clean_columns_other (cols : list string) (df : Frame) (c : string) :
  ~ In c cols -> fold_left (clean_column parse_number) cols df !! c = df !! c.
Proof.
  revert df. induction cols as [|a t IH]; intros df Hn; [reflexivity|].
  cbn [fold_left]. rewrite IH by (intros H; apply Hn; right; exact H).
  apply clean_column_other. intros ->. apply Hn. left. reflexivity.
Qed.

Lemma clean_columns_in (cols : list string) (df : Frame) (c : string) :
  In c cols ->
  fold_left (clean_column parse_number) cols df !! c = cleaned <$> df !! c.
Proof.
  revert df. induction cols as [|a t IH]; intros df Hin; [destruct Hin|].
  cbn [fold_left].
  destruct (in_dec string_dec c t) as [Ht|Ht].
  - rewrite (IH _ Ht). destruct (decide (a = c)) as [->|Hne].
    + rewrite clean_column_same. destruct (df !! c); cbn; [|reflexivity].
      f_equal. apply cleaned_idem.
    + rewrite clean_column_other by exact Hne. reflexivity.
  - destruct Hin as [->|Hin]; [|contradiction].
    rewrite clean_columns_other by exact Ht. apply clean_column_same.
Qed.

Lemma clean_frame_lookup (df : Frame) (col : string) :
  In col numeric_cols ->
  clean_frame parse_number df !! col = cleaned <$> df !! col.
Proof. apply clean_columns_in. Qed.

(** a column outside [numeric_cols] is left as loaded *)
Lemma clean_frame_other (df : Frame) (col : string) :
  ~ In col numeric_cols -> clean_frame parse_number df !! col = df !! col.
Proof. apply clean_columns_other. Qed.

(** X6.  Cleaning a cleaned frame changes nothing *)
Lemma clean_frame_idem (df : Frame) :
  clean_frame parse_number (clean_frame parse_number df)
  = clean_frame parse_number df.
Proof.
  apply map_eq. intros c.
  destruct (in_dec string_dec c numeric_cols) as [Hc|Hc].
  - rewrite !(clean_frame_lookup _ c Hc).
    destruct (df !! c); cbn; [|reflexivity]. f_equal. apply cleaned_idem.
  - rewrite !(clean_frame_other _ c Hc). reflexivity.
Qed.

(** the values of a cleaned column *)
Lemma cleaned_values (loaded : list cell) :
  (forall v, In v (cleaned loaded) -> exists x, v = CFloat x /\ is_nan x = false)
  /\ (forall i c, loaded !! i = Some c -> parses parse_number c = false ->
        cleaned loaded !! i = Some (CFloat zero)).
Proof.
  split.
  - intros v Hv. apply in_map_iff in Hv as [c [<- _]].
    eexists. split; [reflexivity|apply clean_value_not_nan].
  - intros i c Hi Hp. unfold cleaned. rewrite list_lookup_map, Hi. cbn.
    rewrite (clean_value_unparsed _ c Hp). reflexivity.
Qed.

Variable read_sql_query : Loader.query -> Z -> result Frame.

(** C3, as the code has it.  The frame that the page works on is the
    loaded customer table with the cleaning applied right after the
    load.  In every column of [numeric_cols] that the table has, each
    value is a float that is not NaN, obtained from the loaded value
    at the same position; a loaded value that cannot be parsed as a
    number has become exactly 0.0.  (An infinity is a number: it is
    kept.) *)
Theorem df_intel_cleaned (now : Z) (s s' : Loader.loader) (df : Frame) :
  Page.load_df_intel read_sql_query parse_number now s = (Ok df, s') ->
  exists loaded_frame,
    Loader.load_gold_data read_sql_query "customer_intelligence" now s
    = (Ok loaded_frame, s')
    /\ df = clean_frame parse_number loaded_frame
    /\ forall col values,
         In col numeric_cols -> df !! col = Some values ->
         exists loaded,
           loaded_frame !! col = Some loaded
           /\ values = map (fun c => CFloat (clean_value parse_number c)) loaded
           /\ (forall v, In v values -> exists x, v = CFloat x /\ is_nan x = false)
           /\ (forall i c, loaded !! i = Some c -> parses parse_number c = false ->
                 values !! i = Some (CFloat zero)).
Proof.
  unfold Page.load_df_intel.
  destruct (Loader.load_gold_data _ _ _ _) as [[loaded_frame|e] s0];
    unfold fmap, Page.result_fmap; intros [= <- <-].
  exists loaded_frame. split; [reflexivity|]. split; [reflexivity|].
  intros col values Hcol Hv. rewrite (clean_frame_lookup _ col Hcol) in Hv.
  destruct (loaded_frame !! col) as [loaded|]; [|discriminate].
  injection Hv as <-. exists loaded. split; [reflexivity|]. split; [reflexivity|].
  apply cleaned_values.
Qed.

End CleanFrameFacts.

(** the columns of a table given by rows *)
Lemma frame_of_lookup (loaded : list Intel.raw_row) :
  let df := Intel.frame_of loaded in
  df !! "current_clv"%string = Some (map Intel.r_current_clv loaded)
  /\ df !! "monetary_value"%string = Some (map Intel.r_monetary_value loaded)
  /\ df !! "frequency"%string = Some (map Intel.r_frequency loaded)
  /\ df !! "recency"%string = Some (map Intel.r_recency loaded)
  /\ df !! "avg_gap_between_orders"%string
     = Some (map Intel.r_avg_gap_between_orders loaded)
  /\ df !! "avg_spend_change_pct"%string
     = Some (map Intel.r_avg_spend_change_pct loaded).
Proof.
  cbv zeta. unfold Intel.frame_of. cbn [list_to_map foldr uncurry fst snd].
  repeat split;
    repeat (rewrite lookup_insert_ne by discriminate);
    apply lookup_insert_eq.
Qed.

(** the row view and the column view of the cleaning agree: the cleaned
    columns of the frame are the cleaned fields of the rows *)
Lemma frame_of_cleaned (parse_number : string -> option float64)
  (loaded : list Intel.raw_row) :
  let df := Cleaning.clean_frame parse_number (Intel.frame_of loaded) in
  let rows := Intel.df_intel parse_number loaded in
  let column (field : Intel.row -> float64) := Some (map (fun r => CFloat (field r)) rows) in
  df !! "current_clv"%string = column Intel.current_clv
  /\ df !! "monetary_value"%string = column Intel.monetary_value
  /\ df !! "frequency"%string = column Intel.frequency
  /\ df !! "recency"%string = column Intel.recency
  /\ df !! "avg_gap_between_orders"%string = column Intel.avg_gap_between_orders
  /\ df !! "avg_spend_change_pct"%string = column Intel.avg_spend_change_pct.
Proof.
  cbv zeta. unfold Intel.df_intel.
  destruct (frame_of_lookup loaded) as (H1 & H2 & H3 & H4 & H5 & H6).
  repeat split;
    (rewrite clean_frame_lookup by (cbn; tauto));
    rewrite ?H1, ?H2, ?H3, ?H4, ?H5, ?H6;
    cbn [fmap option_fmap option_map]; unfold cleaned;
    rewrite !map_map; reflexivity.
Qed.

(** the sales-trend revenue is coerced only: what cannot be parsed is
    NaN there, not 0.0 *)
Lemma prepare_row_unparsed (parse_number : string -> option float64)
  (r : Trends.raw_row) :
  Cleaning.parses parse_number (Trends.r_daily_revenue r) = false ->
  Trends.daily_revenue (Trends.prepare_row parse_number r) = NaN.
Proof.
  unfold Trends.prepare_row. cbn [Trends.daily_revenue].
  destruct (Trends.r_daily_revenue r); cbn; try discriminate; try reflexivity.
  destruct (parse_number s); [discriminate|reflexivity].
Qed.

(** ** The per-location rollup *)

Section RollupFacts.

Import Trends.

(** the derived column is the plain quotient, for every store *)
Lemma df_store_perf_aov (df_trends : list row) (store : store_perf) :
  In store (df_store_perf df_trends) ->
  avg_order_value store
  = fdiv (total_revenue store)
         (aov_divisor (avg_daily_orders store) (days_active store)).
Proof.
  unfold df_store_perf. intros Hin.
  eapply Permutation_in in Hin; [|apply sort_values_perm].
  apply in_map_iff in Hin as [id [<- _]]. reflexivity.
Qed.

(** C5, as the code has it.  The average order value is an unguarded
    float division.  For a restaurant whose divisor
    [avg_daily_orders * days_active] is zero it does not raise and
    puts no sentinel: the value is the IEEE result, plus or minus
    infinity by the sign of the total revenue, NaN when that is zero
    or NaN; never a finite number. *)
Theorem avg_order_value_zero_divisor (df_trends : list row) (store : store_perf) :
  In store (df_store_perf df_trends) ->
  aov_divisor (avg_daily_orders store) (days_active store) = zero ->
  avg_order_value store
  = match total_revenue store with
    | Finite t => inf_of_sign (sgn t)
    | special => special
    end
  /\ is_finite (avg_order_value store) = false.
Proof.
  intros Hin Hz. rewrite (df_store_perf_aov df_trends store Hin), Hz.
  split; [|apply fdiv_zero_not_finite].
  rewrite fdiv_zero. destruct (total_revenue store); reflexivity.
Qed.

End RollupFacts.

(** ** Loyalty lift *)

Section LoyaltyFacts.

Import Loyalty.

Lemma fmul_100_not_finite (x : float64) :
  is_finite x = false -> is_finite (fmul x (of_Z 100)) = false.
Proof. destruct x; [discriminate|reflexivity..]. Qed.

Lemma lift_pct_zero (a : float64) : is_finite (lift_pct a zero) = false.
Proof. unfold lift_pct. apply fmul_100_not_finite, fdiv_zero_not_finite. Qed.

Lemma delta_text_special (x : float64) :
  is_finite x = false ->
  In (delta_text x)
     ["inf% vs Non-Member"; "-inf% vs Non-Member"; "nan% vs Non-Member"]%string.
Proof.
  destruct x; [discriminate|..]; intros _; cbn [In]; auto.
Qed.

Lemma aov_diff_ok (df : list row) (m n : row) :
  member_stats df = Ok m -> non_member_stats df = Ok n ->
  aov_diff df = Ok (lift_pct (avg_order_value m) (avg_order_value n)).
Proof. intros Hm Hn. unfold aov_diff. rewrite Hm, Hn. reflexivity. Qed.

Lemma repeat_diff_ok (df : list row) (m n : row) :
  member_stats df = Ok m -> non_member_stats df = Ok n ->
  repeat_diff df = Ok (lift_pct (repeat_order_rate m) (repeat_order_rate n)).
Proof. intros Hm Hn. unfold repeat_diff. rewrite Hm, Hn. reflexivity. Qed.

(** C6, as the code has it.  The lift is computed without a guard.
    When the non-member average order value is zero, the computation
    does not raise: the lift is an infinity or NaN, and that value is
    formatted into the delta text of the Member AOV metric as [inf],
    [-inf] or [nan]. *)
Theorem aov_diff_zero_denominator (df : list row) (m n : row) :
  member_stats df = Ok m ->
  non_member_stats df = Ok n ->
  avg_order_value n = zero ->
  exists x,
    aov_diff df = Ok x
    /\ is_finite x = false
    /\ In (delta_text x)
          ["inf% vs Non-Member"; "-inf% vs Non-Member"; "nan% vs Non-Member"]%string
    /\ exists value rest,
         executive_metrics df
         = Ok (Metric "Member AOV" value (Some (delta_text x)) :: rest).
Proof.
  intros Hm Hn Hz.
  exists (lift_pct (avg_order_value m) (avg_order_value n)).
  assert (Hnf : is_finite (lift_pct (avg_order_value m) (avg_order_value n)) = false)
    by (rewrite Hz; apply lift_pct_zero).
  split; [exact (aov_diff_ok df m n Hm Hn)|].
  split; [exact Hnf|].
  split; [exact (delta_text_special _ Hnf)|].
  unfold executive_metrics.
  rewrite (aov_diff_ok df m n Hm Hn), (repeat_diff_ok df m n Hm Hn), Hm.
  cbn [mbind result_bind mret result_ret]. eauto.
Qed.


End LoyaltyFacts.

(** ** The discount section *)

(** [rounds_to x n]: to two decimals, [x] is [n/100] *)
Definition rounds_to (x : float64) (n : Z) : Prop :=
  fleb (dec (10 * n - 5) 1000) x = true /\ fltb x (dec (10 * n + 5) 1000) = true.

(** C8, as the code has it.  With the literal order counts 9150 and
    122178 and revenues 4,695,684.17 and 13,343,599.60, the discount
    order share is 6.97 percent and the discount revenue share is 26.03
    percent, to two decimals. *)
Theorem discount_shares :
  rounds_to Discount.disc_order_pct 697 /\ rounds_to Discount.disc_rev_pct 2603.
Proof. repeat split; vm_compute; reflexivity. Qed.

(** C10.  What the discount section draws, and the three numbers behind
    its metrics, are the same for any two contents of the loaded
    [discount_effectiveness] table. *)
Theorem discount_section_independent (df_discount1 df_discount2 : Frame) :
  Discount.discount_section df_discount1 = Discount.discount_section df_discount2
  /\ Discount.discount_metrics df_discount1 = Discount.discount_metrics df_discount2.
Proof. split; reflexivity. Qed.

(** * The definitions at work on the sample tables *)

Example format_f_lift : Fmt.format_f false 1 (dec (-1482) 100) = "-14.8"%string.
Proof. vm_compute. reflexivity. Qed.

Example format_f_money :
  Fmt.format_f true 2 (dec 469568417 100) = "4,695,684.17"%string.
Proof. vm_compute. reflexivity. Qed.

Example parse_decimal_ex :
  map Cleaning.parse_decimal ["52.83"; "-7"; "abc"; "inf"; ""; "1.2.3"]%string
  = [Some (dec 5283 100); Some (of_Z (-7)); None; Some PosInf; None; None].
Proof. vm_compute. reflexivity. Qed.

(** 2024-02-21, a Wednesday: its week ends on Sunday 2024-02-25 and its
    month on 2024-02-29 *)
Example calendar_ex :
  Calendar.civil_from_days 19774 = (2024, 2, 21)
  /\ Calendar.civil_from_days (Calendar.week_end 19774) = (2024, 2, 25)
  /\ Calendar.civil_from_days (Calendar.month_end 19774) = (2024, 2, 29).
Proof. vm_compute. auto. Qed.

Lemma week_end_bucket (d : Z) :
  d <= Calendar.week_end d < d + 7 /\ Calendar.weekday (Calendar.week_end d) = 6.
Proof.
  unfold Calendar.week_end, Calendar.weekday.
  pose proof (Z.mod_pos_bound (d + 3) 7 ltac:(lia)) as Hb.
  split; [lia|].
  replace (d + (6 - (d + 3) mod 7) + 3) with (d + 3 - (d + 3) mod 7 + 6) by lia.
  rewrite (Z.div_mod (d + 3) 7) at 1 by lia.
  replace (7 * ((d + 3) / 7) + (d + 3) mod 7 - (d + 3) mod 7 + 6)
    with (6 + ((d + 3) / 7) * 7) by lia.
  rewrite Z.mod_add by lia. reflexivity.
Qed.

(** the cleaned lifetime values of the sample customers, and the five
    largest *)
Example top_five_ex :
  map Intel.user_id
      (Intel.df_top_customers 5
         (Intel.df_intel Cleaning.parse_decimal Sample.intel_loaded))
  = ["u3"; "u6"; "u1"; "u7"; "u2"]%string.
Proof. vm_compute. reflexivity. Qed.

(** the sample has two customers in the gap: the view shows them, the
    least recent first *)
Example gap_view_ex :
  (fun v => match v with
            | Ok [Caption _; GapTable rows] =>
                map (fun g => (g_user_id g, g_current_clv g)) rows
            | _ => []
            end)
    (Intel.gap_view (Intel.df_intel Cleaning.parse_decimal Sample.intel_loaded))
  = [("u3", "$7,300.00"); ("u6", "$6,400.00")]%string.
Proof. vm_compute. reflexivity. Qed.

(** weekly buckets of the sample trends for restaurants R1 and R2 *)
Example df_plot_ex :
  map (fun p => (Trends.p_order_date p, Trends.p_restaurant_id p,
                 Fmt.format_f false 2 (Trends.p_daily_revenue p)))
      (Trends.df_plot Trends.Weekly ["R1"; "R2"]%string Sample.trends)
  = [(19778, "R1", "2180.50"); (19778, "R2", "10.00"); (19785, "R1", "0.00")]%string.
Proof. vm_compute. reflexivity. Qed.

(** the loader on three calls: the second is served from the cache, the
    third, an hour after the first, queries again *)
Example load_three_calls :
  let wh := Sample.warehouse Sample.intel_infinite in
  let s1 := (Loader.load_gold_data wh "customer_intelligence" 0 Loader.empty_loader).2 in
  let s2 := (Loader.load_gold_data wh "customer_intelligence" 3599 s1).2 in
  let s3 := (Loader.load_gold_data wh "customer_intelligence" 3600 s2).2 in
  (length (Loader.issued s1), length (Loader.issued s2), length (Loader.issued s3))
  = (1, 1, 2)%nat.
Proof. vm_compute. reflexivity. Qed.

(** * The properties on concrete inputs *)


(** a cold load at time 1000000, and calls one second and 3599 seconds
    later: one query in all; the call 3600 seconds later is the second
    query *)
Example load_cold_then_hit :
  let wh := Sample.warehouse Sample.intel_infinite in
  let s1 := (Loader.load_gold_data wh "customer_intelligence" 1000000
               Loader.empty_loader).2 in
  let s2 := (Loader.load_gold_data wh "customer_intelligence" 1000001 s1).2 in
  let s3 := (Loader.load_gold_data wh "customer_intelligence" 1003599 s2).2 in
  let s4 := (Loader.load_gold_data wh "customer_intelligence" 1003600 s3).2 in
  (length (Loader.issued s1), length (Loader.issued s2),
   length (Loader.issued s3), length (Loader.issued s4)) = (1, 1, 1, 2)%nat
  /\ Loader.ce_time <$> Loader.cache s1 !! "customer_intelligence"%string
     = Some 1000000.
Proof. vm_compute. auto. Qed.

(** the cleaning theorem on a loaded table whose lifetime values hold
    infinities and text *)
Lemma df_intel_cleaned_witness :
  let wh := Sample.warehouse Sample.intel_infinite in
  let loaded := Page.load_df_intel wh Cleaning.parse_decimal 0 Loader.empty_loader in
  exists loaded_frame,
    Loader.load_gold_data wh "customer_intelligence" 0 Loader.empty_loader
    = (Ok loaded_frame, loaded.2)
    /\ Cleaning.clean_frame Cleaning.parse_decimal Sample.intel_infinite
       = Cleaning.clean_frame Cleaning.parse_decimal loaded_frame
    /\ forall col values,
         In col Cleaning.numeric_cols ->
         Cleaning.clean_frame Cleaning.parse_decimal Sample.intel_infinite !! col
         = Some values ->
         exists loaded,
           loaded_frame !! col = Some loaded
           /\ values = map (fun c => CFloat (Cleaning.clean_value Cleaning.parse_decimal c)) loaded
           /\ (forall v, In v values -> exists x, v = CFloat x /\ is_nan x = false)
           /\ (forall i c, loaded !! i = Some c ->
                 Cleaning.parses Cleaning.parse_decimal c = false ->
                 values !! i = Some (CFloat zero)).
Proof.
  cbv zeta.
  apply (df_intel_cleaned Cleaning.parse_decimal
           (Sample.warehouse Sample.intel_infinite) 0 Loader.empty_loader).
  reflexivity.
Defined.

(** C3 as stated fails: an infinity, given as a float or as the text
    [-inf], is a number to the cleaning and comes out as it went in;
    the cleaned column holds values that are not finite. *)
Lemma clean_frame_keeps_infinity :
  Cleaning.clean_frame Cleaning.parse_decimal Sample.intel_infinite
    !! "current_clv"%string
  = Some [CFloat PosInf; CFloat NegInf; CFloat zero; CFloat (of_Z 7)]
  /\ is_finite PosInf = false
  /\ is_finite NegInf = false.
Proof. vm_compute. auto. Qed.

(** the top-customers theorem for N = 5 on the seven sample customers *)
Lemma df_top_customers_witness :
  let df_intel := Intel.df_intel Cleaning.parse_decimal Sample.intel_loaded in
  let top := Intel.df_top_customers 5 df_intel in
  length top = Nat.min 5 (length Sample.intel_loaded)
  /\ (forall r, In r top -> In r df_intel)
  /\ descending Intel.current_clv top
  /\ (List.NoDup (map Intel.r_user_id Sample.intel_loaded) ->
      List.NoDup (map Intel.user_id top)).
Proof.
  apply (df_top_customers_spec Cleaning.parse_decimal 5 Sample.intel_loaded).
  lia.
Defined.

(** the gap theorem on a table without a High-tier customer at churn
    risk *)
Lemma gap_view_empty_witness :
  Intel.df_gap Sample.intel_no_gap = []
  /\ Intel.gap_view Sample.intel_no_gap = Ok [Caption Intel.gap_caption].
Proof.
  apply gap_view_empty.
  intros r Hr [Ht Hs]. cbn [Sample.intel_no_gap In] in Hr.
  destruct Hr as [<-|[<-|[]]]; cbn in Ht, Hs; discriminate.
Defined.

(** the sample store R2, as the rollup has it *)
Definition store_R2 : Trends.store_perf :=
  Trends.aggregate "R2"
    (List.filter (fun r => bool_decide (Trends.restaurant_id r = "R2"%string))
       Sample.trends).

(** the rollup theorem on restaurant R2 of the sample, which has
    revenue and a zero order count *)
Lemma avg_order_value_zero_divisor_witness :
  Trends.avg_order_value store_R2
  = match Trends.total_revenue store_R2 with
    | Finite t => inf_of_sign (sgn t)
    | special => special
    end
  /\ is_finite (Trends.avg_order_value store_R2) = false.
Proof.
  apply (avg_order_value_zero_divisor Sample.trends store_R2).
  - vm_compute. auto.
  - apply (bool_decide_unpack _). vm_compute. exact I.
Defined.

(** C5 as stated fails: restaurant R2 has a divisor of zero, and its
    average order value is no sentinel but plus infinity; restaurant R3,
    without revenue, gets NaN. *)
Lemma avg_order_value_unguarded :
  map (fun s => (Trends.sp_restaurant_id s,
                 bool_decide (Trends.aov_divisor (Trends.avg_daily_orders s)
                                                 (Trends.days_active s) = zero),
                 Trends.avg_order_value s))
      (List.filter (fun s => negb (String.eqb (Trends.sp_restaurant_id s) "R1"))
         (Trends.df_store_perf Sample.trends))
  = [("R2"%string, true, PosInf); ("R3"%string, true, NaN)].
Proof. vm_compute. reflexivity. Qed.

(** the member and the non-member row of the sample with a zero
    non-member average order value *)
Definition member_zero : Loyalty.row :=
  Loyalty.prepare_row (Sample.loyalty_row (Loyalty.FBool true) (dec 4500 100) (of_Z 3)).
Definition non_member_zero : Loyalty.row :=
  Loyalty.prepare_row (Sample.loyalty_row (Loyalty.FBool false) zero (of_Z 2)).

(** the zero-denominator theorem on that sample *)
Lemma aov_diff_zero_denominator_witness :
  exists x,
    Loyalty.aov_diff Sample.loyalty_zero = Ok x
    /\ is_finite x = false
    /\ In (Loyalty.delta_text x)
          ["inf% vs Non-Member"; "-inf% vs Non-Member"; "nan% vs Non-Member"]%string
    /\ exists value rest,
         Loyalty.executive_metrics Sample.loyalty_zero
         = Ok (Metric "Member AOV" value (Some (Loyalty.delta_text x)) :: rest).
Proof.
  apply (aov_diff_zero_denominator Sample.loyalty_zero member_zero non_member_zero);
    reflexivity.
Defined.

(** C6 as stated fails: with a non-member average order value of 0.0
    the lift is plus infinity, and the Member AOV metric shows it. *)
Lemma aov_diff_unguarded :
  Loyalty.aov_diff Sample.loyalty_zero = Ok PosInf
  /\ Loyalty.executive_metrics Sample.loyalty_zero
     = Ok [Metric "Member AOV" "$45.00" (Some "inf% vs Non-Member");
           Metric "Repeat Purchase Rate" "3.00x" (Some "50.0% vs Non-Member");
           Metric "Loyalty Revenue Share" "50.0%" None]%string.
Proof. vm_compute. auto. Qed.



(** the Member AOV metric of that sample *)
Example executive_metrics_ex :
  Loyalty.executive_metrics Sample.loyalty
  = Ok [Metric "Member AOV" "$45.00" (Some "-14.8% vs Non-Member");
        Metric "Repeat Purchase Rate" "3.00x" (Some "50.0% vs Non-Member");
        Metric "Loyalty Revenue Share" "50.0%" None]%string.
Proof. vm_compute. reflexivity. Qed.

(** C8 as stated fails: the discount revenue share is not 26.02 to two
    decimals; it is above 26.025. *)
Lemma disc_rev_pct_not_26_02 :
  ~ (rounds_to Discount.disc_order_pct 697 /\ rounds_to Discount.disc_rev_pct 2602).
Proof. intros [_ [_ H]]. vm_compute in H. discriminate H. Qed.

(** the metrics of the discount section as drawn *)
Example discount_section_ex :
  Discount.discount_section ∅
  = [Chart "Average Order Value ($)"
       [("Discounted", dec 11387 100); ("Full Price", dec 5283 100)];
     Chart "Share of Total Revenue"
       [("Discounted", dec 469568417 100); ("Full Price", dec 1334359960 100)];
     Markdown "### Discount ROI";
     Metric "AOV Lift from Discounts" "115.5%" None;
     Metric "Order Share" "7.0%" None;
     Metric "Revenue Contribution" "26.0%" None]%string.
Proof. vm_compute. reflexivity. Qed.

(** ** The same numbers in binary64 *)

Section Binary64Facts.

Import PrimFloat.
#[local] Set Warnings "-inexact-float".
Local Open Scope float_scope.

(** the lift for 45.00 against 52.83 rounds to -14.82 *)
Example binary64_lift :
  Binary64.within (-14.825) (-14.815) (Binary64.lift_pct 45.00 52.83) = true.
Proof. vm_compute. reflexivity. Qed.

(** the order share rounds to 6.97, the revenue share to 26.03 *)
Example binary64_shares :
  Binary64.within 6.965 6.975 Binary64.disc_order_pct = true
  /\ Binary64.within 26.025 26.035 Binary64.disc_rev_pct = true.
Proof. vm_compute. auto. Qed.

(** division by zero gives an infinity or NaN and does not raise *)
Example binary64_zero_division :
  PrimFloat.is_infinity (Binary64.lift_pct 45.00 0) = true
  /\ PrimFloat.is_nan (Binary64.lift_pct 0 0) = true.
Proof. vm_compute. auto. Qed.


End Binary64Facts.

(** * Further properties of the script *)

(** ** The loader over many calls *)

Section LoaderMoreFacts.

Import Loader.

Variable read_sql_query : query -> Z -> result Frame.

(** X1.  A query that fails on a cache miss surfaces as the exception of the
    call; nothing is stored, so the next call for the table, whenever
    it comes, sends the query again. *)
Theorem load_failure_not_cached (table : string) (now : Z) (s : loader) (e : exn) :
  (forall en, cache s !! table = Some en -> ce_time en + ttl <= now) ->
  read_sql_query (select_all table) now = Raise e ->
  let first := load_gold_data read_sql_query table now s in
  first.1 = Raise e
  /\ cache first.2 = cache s
  /\ issued first.2 = select_all table :: issued s
  /\ forall later, now <= later ->
       issued (load_gold_data read_sql_query table later first.2).2
       = select_all table :: issued first.2.
Proof.
  intros Hmiss Hq. cbv zeta.
  assert (Hfetch : forall t s0, cache s0 = cache s -> now <= t ->
            load_gold_data read_sql_query table t s0 = fetch read_sql_query table t s0).
  { intros t s0 Hc Ht. destruct (cache s !! table) as [en|] eqn:He.
    - apply (load_expired _ table t s0 en); [rewrite Hc; exact He|].
      specialize (Hmiss en eq_refl). lia.
    - apply load_absent. rewrite Hc. exact He. }
  rewrite (Hfetch now s eq_refl) by lia.
  rewrite (fetch_raise _ table now s e Hq). cbn [fst snd cache issued].
  repeat split. intros later Hl.
  set (s1 := {| cache := cache s; issued := select_all table :: issued s |}).
  rewrite (Hfetch later s1 eq_refl Hl). apply fetch_issued.
Qed.

(** X2.  What a call for one table returns does not depend on the calls made
    before it for other tables. *)
Theorem load_independent (table other : string) (now1 now2 : Z) (s : loader) :
  table <> other ->
  (load_gold_data read_sql_query other now2
     (load_gold_data read_sql_query table now1 s).2).1
  = (load_gold_data read_sql_query other now2 s).1.
Proof.
  intros Hne.
  pose proof (load_other_table read_sql_query table other now1 s Hne) as Hc.
  unfold load_gold_data at 1 3. rewrite Hc.
  destruct (cache s !! other) as [en|]; [destruct (fresh now2 en); [reflexivity|]|];
    unfold fetch; destruct (read_sql_query (select_all other) now2); reflexivity.
Qed.

(** X3.  While an entry is fresh, any number of calls for its table return
    the cached frame and change nothing: no query is sent. *)
Theorem load_each_fresh (table : string) (times : list Z) (s : loader)
  (en : cache_entry) :
  cache s !! table = Some en ->
  Forall (fun t => t < ce_time en + 3600) times ->
  load_each read_sql_query table times s
  = (map (fun _ => Ok (ce_value en)) times, s).
Proof.
  intros He. induction 1 as [|t later Ht _ IH]; [reflexivity|].
  cbn [load_each map]. rewrite (load_hit _ table t s en He Ht), IH. reflexivity.
Qed.

Lemma load_issued (table : string) (now : Z) (s : loader) :
  issued (load_gold_data read_sql_query table now s).2 = issued s
  \/ issued (load_gold_data read_sql_query table now s).2
     = select_all table :: issued s.
Proof.
  unfold load_gold_data.
  destruct (cache s !! table) as [en|]; [destruct (fresh now en); [left; reflexivity|]|];
    right; apply fetch_issued.
Qed.

(** X4.  Over any sequence of calls for a table the loader sends at most one
    query per call, keeps the record of the earlier queries, and sends
    nothing but [SELECT * FROM table] to the gold database. *)
Theorem load_each_queries (table : string) (times : list Z) (s : loader) :
  exists sent,
    issued (load_each read_sql_query table times s).2 = sent ++ issued s
    /\ (length sent <= length times)%nat
    /\ Forall (fun q => q = {| q_sql := ("SELECT * FROM " +:+ table)%string;
                              q_database := "globalpartners_gold_db" |}) sent.
Proof.
  revert s. induction times as [|t later IH]; intros s.
  - exists []. repeat split; [cbn; lia|constructor].
  - cbn [load_each].
    destruct (load_gold_data read_sql_query table t s) as [r s1] eqn:E1.
    destruct (load_each read_sql_query table later s1) as [rs s2] eqn:E2.
    destruct (IH s1) as (sent & Hs & Hl & Hq). rewrite E2 in Hs. cbn [snd] in *.
    pose proof (load_issued table t s) as H1. rewrite E1 in H1. cbn [snd] in H1.
    destruct H1 as [H1|H1]; rewrite Hs, H1.
    + exists sent. repeat split; [cbn; lia|exact Hq].
    + exists (sent ++ [select_all table]). rewrite <- app_assoc. repeat split.
      * rewrite length_app. cbn. lia.
      * apply Forall_app. split; [exact Hq|]. repeat constructor.
Qed.

End LoaderMoreFacts.

(** ** The shape of the cleaned frame *)

Section CleanShapeFacts.

Import Cleaning.

Variable parse_number : string -> option float64.

(** X5.  The cleaning adds no column and drops none, skips the columns of
    [numeric_cols] that the table lacks, leaves every other column as
    loaded, and keeps the number of rows of each column. *)
Theorem clean_frame_shape (df : Frame) :
  (forall col, is_Some (clean_frame parse_number df !! col) <-> is_Some (df !! col))
  /\ (forall col, ~ In col numeric_cols ->
        clean_frame parse_number df !! col = df !! col)
  /\ (forall col values, clean_frame parse_number df !! col = Some values ->
        exists loaded, df !! col = Some loaded /\ length values = length loaded).
Proof.
  assert (Hcases : forall col,
            clean_frame parse_number df !! col = df !! col
            \/ clean_frame parse_number df !! col = cleaned parse_number <$> df !! col).
  { intros col. destruct (in_dec string_dec col numeric_cols) as [Hc|Hc].
    - right. apply clean_frame_lookup, Hc.
    - left. apply clean_frame_other, Hc. }
  split; [|split].
  - intros col. destruct (Hcases col) as [->| ->]; [reflexivity|].
    destruct (df !! col); cbn; split; intros [x Hx]; try discriminate; eauto.
  - intros col. apply clean_frame_other.
  - intros col values Hv. destruct (Hcases col) as [H|H]; rewrite H in Hv.
    + exists values. split; [exact Hv|reflexivity].
    + destruct (df !! col) as [loaded|]; [|discriminate].
      injection Hv as <-. exists loaded. split; [reflexivity|].
      unfold cleaned. apply length_map.
Qed.

End CleanShapeFacts.

(** ** Rational arithmetic behind the percentages and means *)

Lemma of_Z_Qc (n : Z) : of_Z n = Finite (Qc_of_Z n).
Proof.
  unfold of_Z. f_equal. apply Qc_is_canon. simpl. apply Qred_correct.
Qed.

Lemma Qc_of_Z_pos (n : Z) : 0 < n -> (Q2Qc 0 < Qc_of_Z n)%Qc.
Proof. intros H. rewrite <- Z2Qc_inj_0. apply (proj1 (Z2Qc_inj_lt 0 n)). exact H. Qed.

Lemma Qc_of_Z_nonneg (n : Z) : 0 <= n -> (Q2Qc 0 <= Qc_of_Z n)%Qc.
Proof. intros H. rewrite <- Z2Qc_inj_0. apply (proj1 (Z2Qc_inj_le 0 n)). exact H. Qed.

Lemma Qc_div_mul (x n : Qc) : n <> Q2Qc 0 -> (x / n * n = x)%Qc.
Proof. intros H. field. exact H. Qed.

Lemma Qc_div_bounds (lo hi x n : Qc) :
  (Q2Qc 0 < n)%Qc -> (lo * n <= x)%Qc -> (x <= hi * n)%Qc ->
  (lo <= x / n /\ x / n <= hi)%Qc.
Proof.
  intros Hn Hlo Hhi.
  assert (Hne : n <> Q2Qc 0) by (apply not_eq_sym, Qclt_not_eq, Hn).
  split; apply (Qcmult_le_mono_pos_r _ _ n Hn);
    rewrite Qc_div_mul by exact Hne; assumption.
Qed.

(** a part of a whole, in percent, is between 0 and 100 *)
Lemma pct_bounds (c n : Z) :
  0 <= c <= n -> 0 < n ->
  (Q2Qc 0 <= Qc_of_Z c / Qc_of_Z n * Qc_of_Z 100
   /\ Qc_of_Z c / Qc_of_Z n * Qc_of_Z 100 <= Qc_of_Z 100)%Qc.
Proof.
  intros Hc Hn.
  destruct (Qc_div_bounds (Q2Qc 0) 1 (Qc_of_Z c) (Qc_of_Z n)) as [H0 H1].
  - apply Qc_of_Z_pos, Hn.
  - rewrite Qcmult_0_l. apply Qc_of_Z_nonneg. lia.
  - rewrite Qcmult_1_l. apply (proj1 (Z2Qc_inj_le c n)). lia.
  - pose proof (Qc_of_Z_nonneg 100 ltac:(lia)) as H100. split.
    + apply Qcmult_nonneg_nonneg; assumption.
    + rewrite <- (Qcmult_1_l (Qc_of_Z 100)) at 2.
      apply Qcmult_le_mono_nonneg_r; assumption.
Qed.

Lemma filter_length_le {A : Type} (f : A -> bool) (l : list A) :
  (length (List.filter f l) <= length l)%nat.
Proof.
  induction l as [|a t IH]; cbn [List.filter length]; [lia|].
  destruct (f a); cbn [length]; lia.
Qed.

(** ** Segment overview and churn share *)

Section SegmentFacts.

Import Intel.

(** X7.  The churn share raises ZeroDivisionError on an empty customer table
    and on no other; on any other table it is a number from 0 to 100. *)
Theorem churn_risk_pct_spec (df_intel : list row) :
  (df_intel = [] -> churn_risk_pct df_intel = ZeroDivisionError)
  /\ (df_intel <> [] ->
      exists p, churn_risk_pct df_intel = Quotient (Finite p)
                /\ (Q2Qc 0 <= p /\ p <= Qc_of_Z 100)%Qc).
Proof.
  split.
  - intros ->. reflexivity.
  - intros Hne. unfold churn_risk_pct, int_truediv, total_customers.
    assert (Hn : 0 < Z.of_nat (length df_intel))
      by (destruct df_intel; [contradiction|cbn [length]; lia]).
    assert (Hc : 0 <= Z.of_nat (churn_risk df_intel) <= Z.of_nat (length df_intel)).
    { split; [lia|]. apply Nat2Z.inj_le. apply filter_length_le. }
    rewrite (proj2 (Z.eqb_neq _ 0)) by lia.
    rewrite !of_Z_Qc.
    rewrite fdiv_finite
      by (apply not_eq_sym, Qclt_not_eq, Qc_of_Z_pos, Hn).
    cbn [fmul]. eexists. split; [reflexivity|].
    apply pct_bounds; assumption.
Qed.

Definition four_segments : list string :=
  ["VIP"; "New Customer"; "Churn Risk"; "Standard"]%string.

(** X8.  The four segment counts never add up to more than the number of
    customers, and add up to it when every customer is in one of the
    four segments. *)
Theorem segment_counts_partition (df_intel : list row) :
  (vips df_intel + new_custs df_intel + churn_risk df_intel + standard df_intel
   <= total_customers df_intel)%nat
  /\ ((forall r, In r df_intel -> In (segment r) four_segments) ->
      (vips df_intel + new_custs df_intel + churn_risk df_intel + standard df_intel
       = total_customers df_intel)%nat).
Proof.
  unfold vips, new_custs, churn_risk, standard, segment_count, total_customers.
  induction df_intel as [|r t [IHle IHeq]]; [split; reflexivity|].
  cbn [List.filter length].
  split.
  - destruct (String.eqb_spec (segment r) "VIP") as [E|_];
      [rewrite E; cbn [String.eqb Ascii.eqb Bool.eqb length]; lia|].
    destruct (String.eqb_spec (segment r) "New Customer") as [E|_];
      [rewrite E; cbn [String.eqb Ascii.eqb Bool.eqb length]; lia|].
    destruct (String.eqb_spec (segment r) "Churn Risk") as [E|_];
      [rewrite E; cbn [String.eqb Ascii.eqb Bool.eqb length]; lia|].
    destruct (String.eqb_spec (segment r) "Standard") as [E|_];
      cbn [length]; lia.
  - intros Hall.
    assert (Ht : forall r', In r' t -> In (segment r') four_segments)
      by (intros r' Hr'; apply Hall; right; exact Hr').
    specialize (IHeq Ht).
    destruct (Hall r (or_introl eq_refl)) as [E|[E|[E|[E|[]]]]];
      rewrite <- E; cbn [String.eqb Ascii.eqb Bool.eqb length]; lia.
Qed.

End SegmentFacts.

(** ** Activity of the High tier, tier averages, top customers *)

Section IntelMoreFacts.

Import Intel.

Lemma activity_exclusive (f : float64) :
  (feqb f zero && fltb zero f = false)
  /\ (fleb zero f = true -> feqb f zero || fltb zero f = true).
Proof.
  unfold feqb, fltb, fleb. rewrite (fcompare_antisym zero f).
  destruct (fcompare zero f) as [[]|]; cbn; auto.
Qed.

(** X9.  Active and inactive High-tier customers never count to more than
    the High tier, and make up the whole tier when no High-tier
    customer has a negative (or missing) frequency. *)
Theorem activity_split (df_intel : list row) :
  (at_risk_count df_intel + active_count df_intel <= total_high df_intel)%nat
  /\ ((forall r, In r df_intel -> clv_tier r = "High"%string ->
         fleb zero (frequency r) = true) ->
      (at_risk_count df_intel + active_count df_intel = total_high df_intel)%nat).
Proof.
  unfold at_risk_count, active_count, total_high, df_high_clv, tier_rows.
  induction df_intel as [|r t [IHle IHeq]]; [split; reflexivity|].
  cbn [List.filter].
  destruct (activity_exclusive (frequency r)) as [Hex Hcov].
  destruct (String.eqb_spec (clv_tier r) "High") as [Ehigh|Ehigh].
  - cbn [List.filter length]. split.
    + destruct (feqb (frequency r) zero), (fltb zero (frequency r));
        try discriminate; cbn [length]; lia.
    + intros Hall.
      assert (Ht : forall r', In r' t -> clv_tier r' = "High"%string ->
                     fleb zero (frequency r') = true)
        by (intros r' Hr'; apply Hall; right; exact Hr').
      specialize (IHeq Ht).
      specialize (Hcov (Hall r (or_introl eq_refl) Ehigh)).
      destruct (feqb (frequency r) zero), (fltb zero (frequency r));
        try discriminate; cbn [length]; lia.
  - split; [exact IHle|].
    intros Hall. apply IHeq. intros r' Hr'. apply Hall. right. exact Hr'.
Qed.

(** X10.  A tier without customers has NaN for its average, shown as
    [$nan]; a tier with a single customer has that customer's lifetime
    value as its average. *)
Theorem avg_clv_spec (tier : string) (df_intel : list row) :
  (tier_rows tier df_intel = [] ->
   avg_clv tier df_intel = NaN
   /\ forall label, tier_metric label (avg_clv tier df_intel)
                    = Metric label "$nan" None)
  /\ (forall r, tier_rows tier df_intel = [r] ->
       is_nan (current_clv r) = false ->
       avg_clv tier df_intel = current_clv r).
Proof.
  unfold avg_clv. split.
  - intros ->. split; [reflexivity|]. intros label. reflexivity.
  - intros r -> Hr. unfold Series.nanmean. cbn [map List.filter].
    rewrite Hr. cbn [negb fsum fold_right length].
    rewrite fadd_zero_r. change (Z.of_nat 1) with 1.
    destruct (current_clv r) as [q| | |]; try discriminate; try reflexivity.
    rewrite of_Z_Qc, fdiv_finite
      by (apply not_eq_sym, Qclt_not_eq, Qc_of_Z_pos; lia).
    f_equal. rewrite Z2Qc_inj_1. field. discriminate.
Qed.

(** X11.  Moving the slider up never reorders the chart: the top N customers
    are the first N of the top M, for N up to M. *)
Theorem df_top_customers_prefix (n m : nat) (df_intel : list row) :
  (n <= m)%nat ->
  df_top_customers n df_intel = firstn n (df_top_customers m df_intel).
Proof.
  intros H. unfold df_top_customers. rewrite firstn_firstn.
  rewrite Nat.min_l by exact H. reflexivity.
Qed.

(** X12.  When some customer is in the gap, the view draws the caption and
    one table with exactly the gap customers, each once, with the
    lifetime value as a dollar amount, ordered by recency, largest
    first. *)
Theorem gap_view_table (df_intel : list row) :
  df_gap df_intel <> [] ->
  exists rows,
    gap_view df_intel = Ok [Caption gap_caption; GapTable rows]
    /\ Permutation rows (df_display (df_gap df_intel))
    /\ length rows = length (List.filter in_gap df_intel)
    /\ Sorted (fun a b => Series.key_ord false (g_recency a) (g_recency b) = true) rows.
Proof.
  intros Hne. unfold gap_view.
  exists (Series.sort_values g_recency false (df_display (df_gap df_intel))).
  pose proof (sort_values_perm g_recency false (df_display (df_gap df_intel))) as Hp.
  split; [destruct (df_gap df_intel); [contradiction|reflexivity]|].
  split; [exact Hp|]. split; [|apply sort_values_sorted].
  rewrite (Permutation_length Hp). unfold df_display, df_gap. apply length_map.
Qed.

End IntelMoreFacts.

(** ** Group-by on any table *)

Lemma key_leb_total (a b : Z * string) :
  ((a.1 <? b.1) || ((a.1 =? b.1) && String.leb a.2 b.2) = true)
  \/ ((b.1 <? a.1) || ((b.1 =? a.1) && String.leb b.2 a.2) = true).
Proof.
  destruct a as [d1 s1], b as [d2 s2]. cbn [fst snd].
  destruct (Z.lt_trichotomy d1 d2) as [H|[H|H]].
  - left. rewrite (proj2 (Z.ltb_lt _ _) H). reflexivity.
  - subst. rewrite Z.ltb_irrefl, Z.eqb_refl. cbn [orb andb].
    apply String.leb_total.
  - right. rewrite (proj2 (Z.ltb_lt _ _) H). reflexivity.
Qed.

Section GroupSumFacts.

Import Series.

Context {R K : Type} `{EqDecision K}.
Variable ord : K -> K -> bool.
Variable key : R -> K.
Variable column : R -> float64.

Lemma group_sum_keys (df : list R) :
  map fst (group_sum ord key column df) = sort_by ord (unique (map key df)).
Proof. unfold group_sum. rewrite map_map. cbn [fst]. apply map_id. Qed.

Lemma group_sum_NoDup (df : list R) :
  List.NoDup (map fst (group_sum ord key column df)).
Proof.
  rewrite group_sum_keys.
  eapply Permutation_NoDup; [symmetry; apply sort_by_perm|apply unique_NoDup].
Qed.

Lemma group_sum_covers (df : list R) (r : R) :
  In r df -> In (key r) (map fst (group_sum ord key column df)).
Proof.
  intros Hr. rewrite group_sum_keys.
  eapply Permutation_in; [symmetry; apply sort_by_perm|].
  apply unique_In, in_map, Hr.
Qed.

Lemma group_sum_rows (df : list R) :
  Permutation (flat_map (group_rows key df) (map fst (group_sum ord key column df)))
              df.
Proof.
  apply groups_permutation; [apply group_sum_NoDup|].
  intros r Hr. apply group_sum_covers, Hr.
Qed.

Lemma group_sum_sorted (df : list R) :
  (forall a b, ord a b = true \/ ord b a = true) ->
  Sorted (fun a b => ord a b = true) (map fst (group_sum ord key column df)).
Proof. intros Ht. rewrite group_sum_keys. apply sort_by_sorted, Ht. Qed.

End GroupSumFacts.

(** ** CLV by segment over time *)

Section RollingFacts.

Import Rolling.

(** whether a customer with this id is in the customer table *)
Definition known (df_intel : list Intel.row) (u : string) : bool :=
  existsb (fun c => String.eqb (Intel.user_id c) u) df_intel.

Lemma filter_unique_id (df_intel : list Intel.row) (u : string) :
  List.NoDup (map Intel.user_id df_intel) ->
  if known df_intel u
  then exists c, List.filter (fun c => String.eqb (Intel.user_id c) u) df_intel = [c]
  else List.filter (fun c => String.eqb (Intel.user_id c) u) df_intel = [].
Proof.
  induction df_intel as [|c t IH]; intros Hnd; [reflexivity|].
  inversion Hnd as [|? ? Hc Ht]; subst.
  cbn [known existsb List.filter].
  destruct (String.eqb_spec (Intel.user_id c) u) as [E|E]; cbn [orb].
  - exists c. f_equal. apply filter_none. intros c' Hc'.
    apply not_true_is_false. intros Hb. apply String.eqb_eq in Hb.
    apply Hc. rewrite E, <- Hb. apply in_map, Hc'.
  - apply IH, Ht.
Qed.

(** X13.  The join with the customer table, when no [user_id] is repeated
    there: the rolling rows of the customers in the table come through
    once each, in their order, and the rows of unknown customers are
    left out; each row carries the tier of a customer with its id. *)
Theorem merge_unique (df_rolling : list row) (df_intel : list Intel.row) :
  List.NoDup (map Intel.user_id df_intel) ->
  map (fun s => (s_user_id s, s_order_date s, s_running_clv s))
      (merge df_rolling df_intel)
  = map (fun r => (user_id r, order_date r, running_clv r))
        (List.filter (fun r => known df_intel (user_id r)) df_rolling)
  /\ forall s, In s (merge df_rolling df_intel) ->
       exists c, In c df_intel
                 /\ Intel.user_id c = s_user_id s
                 /\ Intel.clv_tier c = s_clv_tier s.
Proof.
  intros Hnd. split.
  - induction df_rolling as [|r t IH]; [reflexivity|].
    unfold merge in *. cbn [flat_map List.filter]. rewrite map_app, IH.
    pose proof (filter_unique_id df_intel (user_id r) Hnd) as Hu.
    destruct (known df_intel (user_id r)).
    + destruct Hu as [c ->]. reflexivity.
    + rewrite Hu. reflexivity.
  - intros s Hs. unfold merge in Hs. apply in_flat_map in Hs as (r & _ & Hs).
    apply in_map_iff in Hs as (c & <- & Hc). apply filter_In in Hc as [Hc Hid].
    apply String.eqb_eq in Hid. exists c. cbn. auto.
Qed.

(** X14.  The trend table has one row per (date, tier) pair of the
    joined rows, in the order of the dates and then of the tier names;
    every joined row falls in one of these groups, and the rows of all
    the groups together are the joined rows, each once. *)
Theorem clv_trend_partition (df : list segmented) :
  let key := fun r => (s_order_date r, s_clv_tier r) in
  let keys := map (fun t => (t_order_date t, t_clv_tier t)) (clv_trend df) in
  List.NoDup keys
  /\ Sorted (fun a b => key_leb a b = true) keys
  /\ (forall r, In r df -> In (key r) keys)
  /\ Permutation (flat_map (group_rows key df) keys) df.
Proof.
  cbv zeta. unfold clv_trend. rewrite !map_map.
  cbn [t_order_date t_clv_tier t_running_clv].
  set (key := fun r => (s_order_date r, s_clv_tier r)).
  assert (Hk : forall l : list (Z * string * float64),
             map (fun x => (x.1.1, x.1.2)) l = map fst l)
    by (intros l; apply map_ext; intros [[a b] c]; reflexivity).
  rewrite Hk. repeat split.
  - apply group_sum_NoDup.
  - apply group_sum_sorted. apply key_leb_total.
  - intros r Hr. apply (group_sum_covers key_leb key s_running_clv df r Hr).
  - apply group_sum_rows.
Qed.

End RollingFacts.

(** ** Locations, category mix and the leaderboard *)

Lemma filter_all {A : Type} (f : A -> bool) (l : list A) :
  (forall a, In a l -> f a = true) -> List.filter f l = l.
Proof.
  induction l as [|a t IH]; intros H; [reflexivity|].
  cbn [List.filter]. rewrite (H a) by (left; reflexivity).
  f_equal. apply IH. intros b Hb. apply H. right. exact Hb.
Qed.

Lemma iloc_last_app {A : Type} (l : list A) (x : A) :
  Series.iloc_last (l ++ [x]) = Ok x.
Proof. unfold Series.iloc_last. rewrite rev_app_distr. reflexivity. Qed.

Lemma iloc_last_ok {A : Type} (l : list A) :
  l <> [] -> exists x, Series.iloc_last l = Ok x.
Proof.
  intros H. destruct (exists_last H) as (l' & x & ->).
  exists x. apply iloc_last_app.
Qed.

Lemma StronglySorted_last {A : Type} (R : A -> A -> Prop) (l : list A) (x : A) :
  StronglySorted R (l ++ [x]) -> forall a, In a l -> R a x.
Proof.
  induction l as [|b t IH]; intros Hs a Ha; [destruct Ha|].
  cbn [app] in Hs. apply StronglySorted_inv in Hs as [Ht Hb].
  destruct Ha as [<-|Ha].
  - rewrite List.Forall_forall in Hb. apply Hb. apply in_or_app. right. left. reflexivity.
  - apply IH; assumption.
Qed.

Section LocationFacts.

Import Trends.

Lemma store_perf_ids_perm (df_trends : list row) :
  Permutation (map sp_restaurant_id (df_store_perf df_trends))
              (location_options df_trends).
Proof.
  unfold df_store_perf, location_options.
  rewrite (Permutation_map sp_restaurant_id (sort_values_perm total_revenue false _)).
  rewrite map_map. cbn [sp_restaurant_id aggregate]. rewrite map_id.
  apply sort_by_perm.
Qed.

Lemma store_perf_length (df_trends : list row) :
  length (df_store_perf df_trends) = unique_locations df_trends.
Proof.
  rewrite <- (length_map sp_restaurant_id).
  rewrite (Permutation_length (store_perf_ids_perm df_trends)). reflexivity.
Qed.

(** X15.  The leaderboard has one row per restaurant of the table: as many
    rows as the count of locations announced above the charts, and no
    restaurant twice. *)
Theorem df_store_perf_ids (df_trends : list row) :
  Permutation (map sp_restaurant_id (df_store_perf df_trends))
              (location_options df_trends)
  /\ List.NoDup (map sp_restaurant_id (df_store_perf df_trends))
  /\ length (df_store_perf df_trends) = unique_locations df_trends.
Proof.
  split; [apply store_perf_ids_perm|]. split; [|apply store_perf_length].
  eapply Permutation_NoDup; [symmetry; apply store_perf_ids_perm|apply unique_NoDup].
Qed.

(** X16.  Every row of the table counts for exactly one store of the
    rollup: the rows of the stores, taken together, are the rows of the
    table, each once. *)
Theorem df_store_perf_rows (df_trends : list row) :
  Permutation
    (flat_map (fun store => group_rows restaurant_id df_trends (sp_restaurant_id store))
              (df_store_perf df_trends))
    df_trends.
Proof.
  set (keys := Series.sort_by String.leb (Series.unique (map restaurant_id df_trends))).
  transitivity (flat_map (group_rows restaurant_id df_trends) keys).
  - unfold df_store_perf. fold keys.
    rewrite (Permutation_flat_map
               (fun store => group_rows restaurant_id df_trends (sp_restaurant_id store))
               (sort_values_perm total_revenue false _)).
    rewrite !flat_map_concat_map, map_map. cbn [sp_restaurant_id aggregate].
    reflexivity.
  - apply groups_permutation.
    + eapply Permutation_NoDup; [symmetry; apply sort_by_perm|apply unique_NoDup].
    + intros r Hr. eapply Permutation_in; [symmetry; apply sort_by_perm|].
      apply unique_In, in_map, Hr.
Qed.

Lemma key_ord_trans (ascending : bool) (x y z : float64) :
  Series.key_ord ascending x y = true ->
  Series.key_ord ascending y z = true ->
  Series.key_ord ascending x z = true.
Proof.
  unfold Series.key_ord.
  destruct (is_nan z) eqn:Hz; [reflexivity|].
  destruct (is_nan y) eqn:Hy; [intros _ H; discriminate H|].
  destruct (is_nan x) eqn:Hx; [intros H; discriminate H|].
  destruct ascending; intros Hxy Hyz; eapply fleb_trans; eassumption.
Qed.

Lemma store_perf_sorted (df_trends : list row) :
  StronglySorted
    (fun a b => Series.key_ord false (total_revenue a) (total_revenue b) = true)
    (df_store_perf df_trends).
Proof.
  apply Sorted_StronglySorted.
  - intros a b c. apply key_ord_trans.
  - unfold df_store_perf. apply sort_values_sorted.
Qed.

Lemma store_perf_descending (df_trends : list row) :
  (forall store, In store (df_store_perf df_trends) ->
     is_nan (total_revenue store) = false) ->
  descending total_revenue (df_store_perf df_trends).
Proof.
  intros Hnn. pose proof (store_perf_sorted df_trends) as Hs.
  unfold descending. induction Hs as [|a t Ht IH Ha]; constructor.
  - apply IH. intros store Hin. apply Hnn. right. exact Hin.
  - rewrite List.Forall_forall in *. intros b Hb. specialize (Ha b Hb).
    unfold Series.key_ord in Ha.
    rewrite (Hnn b (or_intror Hb)), (Hnn a (or_introl eq_refl)) in Ha. exact Ha.
Qed.

(** X17.  The stores of the rollup are ranked by total revenue, largest
    first, a store whose total is missing (NaN) after all the others;
    when no total is missing, every store has a total at least as large
    as that of every store after it. *)
Theorem df_store_perf_ranked (df_trends : list row) :
  StronglySorted
    (fun a b => Series.key_ord false (total_revenue a) (total_revenue b) = true)
    (df_store_perf df_trends)
  /\ ((forall store, In store (df_store_perf df_trends) ->
         is_nan (total_revenue store) = false) ->
      descending total_revenue (df_store_perf df_trends)).
Proof.
  split; [apply store_perf_sorted|apply store_perf_descending].
Qed.

(** X18.  With fewer than two restaurants the leaderboard section raises
    IndexError: on an empty table at the best store, on a single
    restaurant at the second store.  With two or more it computes its
    insight. *)
Theorem leaderboard_insight_raises (df_trends : list row) :
  ((unique_locations df_trends < 2)%nat ->
   leaderboard_insight (df_store_perf df_trends) = Raise IndexError)
  /\ ((2 <= unique_locations df_trends)%nat ->
      exists lb, leaderboard_insight (df_store_perf df_trends) = Ok lb).
Proof.
  rewrite <- (store_perf_length df_trends).
  unfold leaderboard_insight.
  destruct (df_store_perf df_trends) as [|a [|b t]]; cbn [length].
  - split; [reflexivity|lia].
  - split; [reflexivity|lia].
  - split; [lia|]. intros _.
    destruct (iloc_last_ok (a :: b :: t) ltac:(discriminate)) as [w Hw].
    rewrite Hw. cbn [iloc0 Series.iloc1 mbind result_bind mret result_ret]. eauto.
Qed.

(** X19.  With two or more restaurants whose totals are all finite
    numbers, the best store has the largest total and the worst store
    the smallest, and the gap between the first and the second store is
    not negative. *)
Theorem leaderboard_insight_extremes (df_trends : list row) :
  (2 <= unique_locations df_trends)%nat ->
  (forall store, In store (df_store_perf df_trends) ->
     is_finite (total_revenue store) = true) ->
  exists lb,
    leaderboard_insight (df_store_perf df_trends) = Ok lb
    /\ (forall store, In store (df_store_perf df_trends) ->
          fleb (total_revenue store) (total_revenue (best_store lb)) = true
          /\ fleb (total_revenue (worst_store lb)) (total_revenue store) = true)
    /\ fleb zero (gap_to_second lb) = true.
Proof.
  intros H2 Hf.
  assert (Hnn : forall store, In store (df_store_perf df_trends) ->
                  is_nan (total_revenue store) = false).
  { intros store Hs. specialize (Hf store Hs).
    destruct (total_revenue store); try discriminate. reflexivity. }
  pose proof (store_perf_descending df_trends Hnn) as Hs.
  pose proof (store_perf_length df_trends) as Hlen. rewrite <- Hlen in H2.
  unfold descending in Hs. unfold leaderboard_insight.
  destruct (exists_last (l := df_store_perf df_trends)
              ltac:(intros E; rewrite E in H2; cbn in H2; lia)) as (l' & w & E).
  rewrite E in *. clear E Hlen Hnn.
  assert (Hrefl : forall s, In s (l' ++ [w]) ->
                    fleb (total_revenue s) (total_revenue s) = true).
  { intros s Hin. specialize (Hf s Hin).
    destruct (total_revenue s); try discriminate.
    apply fleb_finite, Qcle_refl. }
  destruct l' as [|a l'']; [cbn in H2; lia|].
  assert (Hsecond : exists b,
             Series.iloc1 ((a :: l'') ++ [w]) = Ok b /\ In b ((a :: l'') ++ [w])
             /\ fleb (total_revenue b) (total_revenue a) = true).
  { pose proof (StronglySorted_inv Hs) as [_ Ha]. rewrite List.Forall_forall in Ha.
    destruct l'' as [|b t]; cbn [app Series.iloc1].
    - exists w. repeat split; [right; left; reflexivity|].
      apply Ha. left. reflexivity.
    - exists b. repeat split; [right; left; reflexivity|].
      apply Ha. left. reflexivity. }
  destruct Hsecond as (b & Hb & Hbin & Hba).
  rewrite iloc_last_app, Hb.
  change (iloc0 ((a :: l'') ++ [w])) with (Ok (A := store_perf) a).
  cbn [mbind result_bind mret result_ret].
  pose proof (Hf a (or_introl eq_refl)) as Hfa.
  pose proof (Hf b Hbin) as Hfb.
  eexists. split; [reflexivity|].
  cbn [best_store worst_store gap_to_second]. split.
  - intros store Hstore. split.
    + destruct Hstore as [<-|Hin]; [apply Hrefl; left; reflexivity|].
      pose proof (StronglySorted_inv Hs) as [_ Ha]. rewrite List.Forall_forall in Ha.
      apply Ha. exact Hin.
    + apply in_app_or in Hstore as [Hin|[<-|[]]].
      * exact (StronglySorted_last _ _ _ Hs store Hin).
      * apply Hrefl. apply in_or_app. right. left. reflexivity.
  - destruct (total_revenue a) as [qa| | |]; try discriminate.
    destruct (total_revenue b) as [qb| | |]; try discriminate.
    cbn [fsub fneg fadd]. apply fleb_finite in Hba. apply fleb_finite.
    apply (proj1 (Qcle_minus_iff qb qa)). exact Hba.
Qed.

End LocationFacts.

(** ** The restaurant filter and the charts of section 4 *)

Section SelectionFacts.

Import Trends.

Lemma df_filtered_all (selected : list string) (df_trends : list row) :
  (forall id, In id (location_options df_trends) -> In id selected) ->
  df_filtered selected df_trends = df_trends.
Proof.
  intros Hsel. unfold df_filtered. apply filter_all. intros r Hr.
  apply bool_decide_eq_true_2, list_elem_of_In, Hsel.
  unfold location_options. apply unique_In, in_map, Hr.
Qed.

(** X20.  The default of the restaurant filter holds the first three
    restaurants of the table, or all of them when there are fewer,
    none twice.  Selecting every option filters nothing out, and so
    does the default on a table with at most three restaurants. *)
Theorem default_locations_spec (df_trends : list row) :
  length (default_locations df_trends) = Nat.min 3 (unique_locations df_trends)
  /\ List.NoDup (default_locations df_trends)
  /\ (forall id, In id (default_locations df_trends) ->
        In id (location_options df_trends))
  /\ df_filtered (location_options df_trends) df_trends = df_trends
  /\ ((unique_locations df_trends <= 3)%nat ->
      df_filtered (default_locations df_trends) df_trends = df_trends).
Proof.
  unfold default_locations. repeat split.
  - apply length_firstn.
  - apply NoDup_firstn, unique_NoDup.
  - intros id. apply In_firstn.
  - apply df_filtered_all. auto.
  - intros Hle. apply df_filtered_all. intros id Hid.
    rewrite firstn_all2; [exact Hid|exact Hle].
Qed.

(** X21.  The rows of the trend chart come ordered by bucket date and, within
    a date, by restaurant: each line of the chart runs forward in
    time. *)
Theorem df_plot_sorted (g : time_grain) (selected_locations : list string)
  (df_trends : list row) :
  Sorted (fun a b => key_leb a b = true)
         (map (fun p => (p_order_date p, p_restaurant_id p))
              (df_plot g selected_locations df_trends)).
Proof.
  unfold df_plot. rewrite map_map. cbn [p_order_date p_restaurant_id].
  assert (Hk : forall l : list (Z * string * float64),
             map (fun x => (x.1.1, x.1.2)) l = map fst l)
    by (intros l; apply map_ext; intros [[a b] c]; reflexivity).
  rewrite Hk, groupby_sum_keys. apply sort_by_sorted. apply key_leb_total.
Qed.

(** X22.  The category chart has one bar per item category of the
    filtered rows: no category comes twice, every filtered row counts
    for one of them and the rows of all categories together are the
    filtered rows, each once; the bars are ordered by total, largest
    first, a missing total last. *)
Theorem category_mix_spec (selected_locations : list string)
  (df_trends : list row) :
  let filtered := df_filtered selected_locations df_trends in
  let mix := category_mix selected_locations df_trends in
  List.NoDup (map fst mix)
  /\ (forall r, In r filtered -> In (item_category r) (map fst mix))
  /\ Permutation (flat_map (group_rows item_category filtered) (map fst mix)) filtered
  /\ Sorted (fun a b => Series.key_ord false (snd a) (snd b) = true) mix.
Proof.
  cbv zeta. unfold category_mix.
  set (D := df_filtered selected_locations df_trends).
  pose proof (sort_values_perm (A := string * float64) snd false
                (Series.group_sum String.leb item_category daily_revenue D)) as Hp.
  pose proof (Permutation_map fst Hp) as Hpk.
  split; [|split; [|split]].
  - eapply Permutation_NoDup; [symmetry; exact Hpk|]. apply group_sum_NoDup.
  - intros r Hr. eapply Permutation_in; [symmetry; exact Hpk|].
    apply (group_sum_covers String.leb item_category daily_revenue D r Hr).
  - rewrite (Permutation_flat_map (group_rows item_category D) Hpk).
    apply group_sum_rows.
  - apply sort_values_sorted.
Qed.

End SelectionFacts.

(** ** The loyalty section and its missing rows *)

Section LoyaltyMoreFacts.

Import Loyalty.

(** some row of the table has this status *)
Definition has_status (status : string) (df : list row) : Prop :=
  exists r, In r df /\ Status r = Some status.

Lemma stats_of_cases (status : string) (df : list row) :
  (stats_of status df = Raise IndexError /\ ~ has_status status df)
  \/ (exists r, stats_of status df = Ok r /\ In r df /\ Status r = Some status).
Proof.
  unfold stats_of.
  destruct (List.filter (fun r => bool_decide (Status r = Some status)) df)
    as [|r t] eqn:E.
  - left. split; [reflexivity|]. intros (r & Hr & Hs).
    assert (Hin : In r (List.filter (fun r => bool_decide (Status r = Some status)) df))
      by (apply filter_In; split; [exact Hr|apply bool_decide_eq_true_2, Hs]).
    rewrite E in Hin. destruct Hin.
  - right. exists r.
    assert (Hin : In r (List.filter (fun r => bool_decide (Status r = Some status)) df))
      by (rewrite E; left; reflexivity).
    apply filter_In in Hin as [Hin Hs]. apply bool_decide_eq_true_1 in Hs.
    split; [reflexivity|]. split; assumption.
Qed.

(** X23.  The loyalty section needs a member row and a non-member row.  When
    either is missing (the table is empty, has one status only, or its
    flags are in none of the known spellings), the metrics and the
    section raise IndexError; when both are there, the section draws
    its three metrics and prints the two LTV figures, whatever the
    numbers are. *)
Theorem loyalty_section_raises (df : list row) :
  (~ (has_status "Loyalty Member" df /\ has_status "Non-Member" df) ->
   executive_metrics df = Raise IndexError
   /\ loyalty_section df = Raise IndexError)
  /\ (has_status "Loyalty Member" df -> has_status "Non-Member" df ->
      exists m1 m2 m3 non_member_text member_text,
        executive_metrics df = Ok [m1; m2; m3]
        /\ loyalty_section df = Ok ([m1; m2; m3], (non_member_text, member_text))).
Proof.
  unfold loyalty_section, executive_metrics, aov_diff, repeat_diff,
    member_ltv, non_member_ltv, ltv_of, member_stats, non_member_stats.
  destruct (stats_of_cases "Loyalty Member" df) as [[Em Hm]|(m & Em & _)];
    destruct (stats_of_cases "Non-Member" df) as [[En Hn]|(n & En & _)];
    rewrite Em, En; cbn [mbind result_bind mret result_ret fmap Page.result_fmap].
  - split; [auto|]. intros H _. contradiction.
  - split; [auto|]. intros H _. contradiction.
  - split; [auto|]. intros _ H. contradiction.
  - split; [|intros _ _; repeat eexists].
    intros H. exfalso. apply H.
    destruct (stats_of_cases "Loyalty Member" df) as [[E _]|(m' & _ & Hin & Hs)];
      [rewrite Em in E; discriminate|].
    destruct (stats_of_cases "Non-Member" df) as [[E _]|(n' & _ & Hin' & Hs')];
      [rewrite En in E; discriminate|].
    split; [exists m'|exists n']; auto.
Qed.

End LoyaltyMoreFacts.

(** ** Weekly buckets *)

(** X24.  The weekly bucket of a date is the Sunday on or after it, at most
    six days later; all the dates from a date to its bucket label share
    the bucket, and a later date never gets an earlier bucket. *)
Theorem week_end_spec (d : Z) :
  (d <= Calendar.week_end d < d + 7)
  /\ Calendar.weekday (Calendar.week_end d) = 6
  /\ (forall d', d <= d' <= Calendar.week_end d ->
        Calendar.week_end d' = Calendar.week_end d)
  /\ (forall d', d <= d' -> Calendar.week_end d <= Calendar.week_end d').
Proof.
  destruct (week_end_bucket d) as [Hb Hs].
  split; [exact Hb|]. split; [exact Hs|].
  unfold Calendar.week_end, Calendar.weekday in *.
  split; intros d' H; Z.div_mod_to_equations; lia.
Qed.

(** A day number and its calendar date determine each other: the day
    number of the year, month and day of a date is the date, and the
    month and the day are a month and a day of the calendar. *)
Theorem civil_from_days_roundtrip (d : Z) :
  let '(y, m, dd) := Calendar.civil_from_days d in
  Calendar.days_from_civil y m dd = d /\ 1 <= m <= 12 /\ 1 <= dd <= 31.
Proof.
  unfold Calendar.civil_from_days, Calendar.days_from_civil. cbv zeta.
  repeat match goal with
  | |- context [?a <? ?b] =>
      let E := fresh "E" in
      destruct (a <? b) eqn:E; [apply Z.ltb_lt in E|apply Z.ltb_ge in E]
  | |- context [?a <=? ?b] =>
      let E := fresh "E" in
      destruct (a <=? b) eqn:E; [apply Z.leb_le in E|apply Z.leb_gt in E]
  end.
  all: repeat split; Z.div_mod_to_equations; lia.
Qed.

(** ** Monthly buckets *)

(** X25.  The monthly bucket of a date is on or after the date and at most 30
    days later, and the day after it is the first day of a calendar
    month. *)
Theorem month_end_spec (d : Z) :
  (d <= Calendar.month_end d <= d + 30)
  /\ exists y m, 1 <= m <= 12
                 /\ Calendar.month_end d + 1 = Calendar.days_from_civil y m 1.
Proof.
  split.
  - unfold Calendar.month_end, Calendar.civil_from_days, Calendar.days_from_civil.
    cbv zeta.
    repeat match goal with
    | |- context [?a <? ?b] =>
        let E := fresh "E" in
        destruct (a <? b) eqn:E; [apply Z.ltb_lt in E|apply Z.ltb_ge in E]
    | |- context [?a <=? ?b] =>
        let E := fresh "E" in
        destruct (a <=? b) eqn:E; [apply Z.leb_le in E|apply Z.leb_gt in E]
    | |- context [?a =? ?b] =>
        let E := fresh "E" in
        destruct (a =? b) eqn:E; [apply Z.eqb_eq in E|apply Z.eqb_neq in E]
    end.
    all: split; Z.div_mod_to_equations; lia.
  - pose proof (civil_from_days_roundtrip d) as Hc. unfold Calendar.month_end.
    destruct (Calendar.civil_from_days d) as [[y m] dd]. destruct Hc as (_ & Hm & _).
    destruct (m =? 12) eqn:E.
    + exists (y + 1), 1. split; lia.
    + apply Z.eqb_neq in E. exists y, (m + 1). split; lia.
Qed.

(** * The further properties on the sample tables *)

Lemma load_failure_not_cached_witness :
  let wh := Sample.warehouse Sample.intel_infinite in
  let first := Loader.load_gold_data wh "loyalty_roi_analysis" 0 Loader.empty_loader in
  first.1 = Raise (QueryFailed "TABLE_NOT_FOUND")
  /\ Loader.cache first.2 = Loader.cache Loader.empty_loader
  /\ Loader.issued first.2
     = Loader.select_all "loyalty_roi_analysis" :: Loader.issued Loader.empty_loader
  /\ forall later, 0 <= later ->
       Loader.issued (Loader.load_gold_data wh "loyalty_roi_analysis" later first.2).2
       = Loader.select_all "loyalty_roi_analysis" :: Loader.issued first.2.
Proof.
  apply (load_failure_not_cached (Sample.warehouse Sample.intel_infinite)
           "loyalty_roi_analysis" 0 Loader.empty_loader
           (QueryFailed "TABLE_NOT_FOUND")).
  - intros en H. cbn in H. rewrite lookup_empty in H. discriminate H.
  - reflexivity.
Defined.

Lemma load_independent_witness :
  let wh := Sample.warehouse Sample.intel_infinite in
  (Loader.load_gold_data wh "customer_intelligence" 60
     (Loader.load_gold_data wh "loyalty_roi_analysis" 0 Loader.empty_loader).2).1
  = (Loader.load_gold_data wh "customer_intelligence" 60 Loader.empty_loader).1.
Proof.
  apply (load_independent (Sample.warehouse Sample.intel_infinite)
           "loyalty_roi_analysis" "customer_intelligence" 0 60 Loader.empty_loader).
  discriminate.
Defined.

(** the loader after one successful call at time 0 *)
Definition loaded_once : Loader.loader :=
  (Loader.load_gold_data (Sample.warehouse Sample.intel_infinite)
     "customer_intelligence" 0 Loader.empty_loader).2.

Lemma load_each_fresh_witness :
  Loader.load_each (Sample.warehouse Sample.intel_infinite)
    "customer_intelligence" [10; 1800; 3599] loaded_once
  = (map (fun _ => Ok Sample.intel_infinite) [10; 1800; 3599], loaded_once).
Proof.
  apply (load_each_fresh (Sample.warehouse Sample.intel_infinite)
           "customer_intelligence" [10; 1800; 3599] loaded_once
           {| Loader.ce_value := Sample.intel_infinite; Loader.ce_time := 0 |}).
  - vm_compute. reflexivity.
  - repeat constructor; cbn; lia.
Defined.

Lemma df_top_customers_prefix_witness :
  let df_intel := Intel.df_intel Cleaning.parse_decimal Sample.intel_loaded in
  Intel.df_top_customers 5 df_intel = firstn 5 (Intel.df_top_customers 20 df_intel).
Proof.
  apply (df_top_customers_prefix 5 20). lia.
Defined.

Lemma gap_view_table_witness :
  let df_intel := Intel.df_intel Cleaning.parse_decimal Sample.intel_loaded in
  exists rows,
    Intel.gap_view df_intel = Ok [Caption Intel.gap_caption; GapTable rows]
    /\ Permutation rows (Intel.df_display (Intel.df_gap df_intel))
    /\ length rows = length (List.filter Intel.in_gap df_intel)
    /\ Sorted (fun a b => Series.key_ord false (g_recency a) (g_recency b) = true) rows.
Proof.
  apply gap_view_table. intros H. vm_compute in H. discriminate H.
Defined.

(** rolling metrics of two known customers and of one that the customer
    table does not have *)
Definition rolling_sample : list Rolling.row :=
  [ {| Rolling.user_id := "u1"; Rolling.order_date := 19774;
       Rolling.running_clv := dec 10050 100 |};
    {| Rolling.user_id := "u9"; Rolling.order_date := 19774;
       Rolling.running_clv := of_Z 40 |};
    {| Rolling.user_id := "u2"; Rolling.order_date := 19775;
       Rolling.running_clv := of_Z 75 |};
    {| Rolling.user_id := "u1"; Rolling.order_date := 19775;
       Rolling.running_clv := dec 15075 100 |} ]%string.

Lemma merge_unique_witness :
  let df_intel := Intel.df_intel Cleaning.parse_decimal Sample.intel_loaded in
  map (fun s => (Rolling.s_user_id s, Rolling.s_order_date s, Rolling.s_running_clv s))
      (Rolling.merge rolling_sample df_intel)
  = map (fun r => (Rolling.user_id r, Rolling.order_date r, Rolling.running_clv r))
        (List.filter (fun r => known df_intel (Rolling.user_id r)) rolling_sample)
  /\ forall s, In s (Rolling.merge rolling_sample df_intel) ->
       exists c, In c df_intel
                 /\ Intel.user_id c = Rolling.s_user_id s
                 /\ Intel.clv_tier c = Rolling.s_clv_tier s.
Proof.
  apply merge_unique.
  unfold Intel.df_intel. rewrite map_map. cbn.
  repeat constructor; cbn; intros H;
    repeat (destruct H as [H|H]; [discriminate H|]); exact H.
Defined.

(** the joined sample: the row of the unknown customer u9 is left out *)
Example merge_ex :
  map (fun s => (Rolling.s_user_id s, Rolling.s_order_date s, Rolling.s_clv_tier s))
      (Rolling.merge rolling_sample
         (Intel.df_intel Cleaning.parse_decimal Sample.intel_loaded))
  = [("u1", 19774, "High"); ("u2", 19775, "Medium"); ("u1", 19775, "High")]%string.
Proof. vm_compute. reflexivity. Qed.

Lemma sample_totals_finite (store : Trends.store_perf) :
  In store (Trends.df_store_perf Sample.trends) ->
  is_finite (Trends.total_revenue store) = true.
Proof.
  intros H. vm_compute in H.
  repeat (destruct H as [<-|H]; [reflexivity|]). destruct H.
Qed.

Lemma leaderboard_insight_extremes_witness :
  exists lb,
    Trends.leaderboard_insight (Trends.df_store_perf Sample.trends) = Ok lb
    /\ (forall store, In store (Trends.df_store_perf Sample.trends) ->
          fleb (Trends.total_revenue store)
               (Trends.total_revenue (Trends.best_store lb)) = true
          /\ fleb (Trends.total_revenue (Trends.worst_store lb))
                  (Trends.total_revenue store) = true)
    /\ fleb zero (Trends.gap_to_second lb) = true.
Proof.
  apply leaderboard_insight_extremes.
  - vm_compute. lia.
  - exact sample_totals_finite.
Defined.

(** the leaderboard of the sample: R1 first, R3 last, R2 second *)
Example leaderboard_ex :
  (fun r => match r with
            | Ok lb => [Trends.sp_restaurant_id (Trends.best_store lb);
                        Trends.sp_restaurant_id (Trends.worst_store lb);
                        Trends.sp_restaurant_id (Trends.second_location lb);
                        Fmt.format_f true 2 (Trends.gap_to_second lb)]
            | Raise _ => []
            end)
    (Trends.leaderboard_insight (Trends.df_store_perf Sample.trends))
  = ["R1"; "R3"; "R2"; "2,170.50"]%string.
Proof. vm_compute. reflexivity. Qed.

(** on an empty customer table the churn share raises; on the sample it
    is three customers in seven *)
Example churn_risk_pct_ex :
  Intel.churn_risk_pct [] = ZeroDivisionError
  /\ (fun q => match q with
               | Quotient x => Fmt.format_f false 1 x
               | ZeroDivisionError => EmptyString
               end)
       (Intel.churn_risk_pct (Intel.df_intel Cleaning.parse_decimal Sample.intel_loaded))
     = "42.9"%string.
Proof. vm_compute. auto. Qed.
